(** * Applestar launcher: [distar/bin/play.py]

    A shallow embedding of [main] of [distar/bin/play.py] and the
    properties of its configuration pipeline: locating the StarCraft II
    installation, choosing the compute device, resolving the two model
    paths, overriding the race, deriving the player identities and
    handing the configuration to [Actor].

    The process environment ([os.environ]) is a finite map, the file
    system, [sys.platform], the torch probes, the directory of the script
    and [read_config] are fields of a [world]; [main] runs in a small
    monad that threads [os.environ], collects the observable events
    (lines printed, backend probes, calls into [Actor]) and stops at the
    first exception. *)

From Stdlib Require Import ZArith Lia Ascii.
From stdpp Require Import base gmap strings list.

Local Open Scope char_scope.
Local Open Scope stdpp_scope.

(** ** Python string and [posixpath] operations used by the script *)

Module PyStr.

(** [s.startswith(p)] *)
Definition startswith (p s : string) : bool := String.prefix p s.

(** The last character of [s], if any. *)
Fixpoint last_char (s : string) : option ascii :=
  match s with
  | EmptyString => None
  | String c EmptyString => Some c
  | String _ t => last_char t
  end.

(** [s.endswith(c)] for a one-character suffix. *)
Definition endswith_char (c : ascii) (s : string) : bool :=
  match last_char s with
  | Some d => Ascii.eqb d c
  | None => false
  end.

(** [needle in hay] *)
Fixpoint str_in (needle hay : string) : bool :=
  String.prefix needle hay ||
  match hay with
  | EmptyString => false
  | String _ t => str_in needle t
  end.

(** [c in s] for a single character. *)
Fixpoint char_in (c : ascii) (s : string) : bool :=
  match s with
  | EmptyString => false
  | String d t => Ascii.eqb d c || char_in c t
  end.

(** [s.split(sep)] for a one-character separator: never empty. *)
Fixpoint split (sep : ascii) (s : string) : list string :=
  match s with
  | EmptyString => [EmptyString]
  | String c t =>
      if Ascii.eqb c sep then EmptyString :: split sep t
      else match split sep t with
           | h :: r => String c h :: r
           | [] => [String c EmptyString]
           end
  end.

(** [l[0]] on the result of [split], which always has an element. *)
Definition item0 (l : list string) : string := default EmptyString (l !! 0%nat).

(** Truthiness of a string: [bool(s)]. *)
Definition truthy (s : string) : bool :=
  match s with EmptyString => false | _ => true end.

End PyStr.

Module PosixPath.

Definition sep : ascii := "/".

(** [os.path.join(a, b)]: an absolute [b] discards [a]; otherwise the
    two are concatenated, with a separator unless [a] is empty or
    already ends with one. *)
Definition join (a b : string) : string :=
  if PyStr.startswith (String sep EmptyString) b then b
  else if negb (PyStr.truthy a) || PyStr.endswith_char sep a then a +:+ b
  else a +:+ String sep b.

(** [os.path.basename(p)] is [p[p.rfind('/') + 1:]]: [cur] is the text
    after the last separator seen so far. *)
Fixpoint basename_from (cur p : string) : string :=
  match p with
  | EmptyString => cur
  | String c t =>
      if Ascii.eqb c sep then basename_from t t else basename_from cur t
  end.

Definition basename (p : string) : string := basename_from p p.

End PosixPath.

(** ** Command line *)

Inductive game_type := agent_vs_agent | agent_vs_bot | human_vs_agent.

Inductive race := zerg | protoss | terran.

Definition race_str (r : race) : string :=
  match r with zerg => "zerg" | protoss => "protoss" | terran => "terran" end.

(** The namespace returned by [parser.parse_args()]. [argparse] rejects
    any [--game_type] or [--race] outside its [choices]. *)
Record args := Args {
  args_model1 : option string;
  args_model2 : option string;
  args_cpu : bool;
  args_game_type : game_type;
  args_race : race;
}.

(** ** The configuration object *)

Record model_paths := ModelPaths {
  model1 : string;
  model2 : string;
}.

Record actor_cfg := ActorCfg {
  job_type : string;
  episode_num : Z;
  use_cuda : bool;
  use_mps : bool;
  device : string;
  actor_model_paths : model_paths;
  actor_player_ids : list string;
}.

Record env_cfg := EnvCfg {
  realtime : bool;
  races : list string;
  env_player_ids : list string;
}.

Record common_cfg := CommonCfg {
  common_type : string;
}.

(** The configuration [read_config] returns, as far as the script uses
    it: the entries it reads ([model_paths], [races]) are taken to be
    present with the types the script expects, the entries it only
    writes hold whatever the file gave them. [other] stands for every
    entry that the script neither reads nor writes. *)
Record config := Config {
  actor : actor_cfg;
  env : env_cfg;
  common : common_cfg;
  other : gmap string string;
}.

Definition with_actor (f : actor_cfg → actor_cfg) (c : config) : config :=
  Config (f (actor c)) (env c) (common c) (other c).
Definition with_env (f : env_cfg → env_cfg) (c : config) : config :=
  Config (actor c) (f (env c)) (common c) (other c).
Definition with_common (f : common_cfg → common_cfg) (c : config) : config :=
  Config (actor c) (env c) (f (common c)) (other c).

Definition set_job_type (v : string) : config → config :=
  with_actor (λ a, ActorCfg v (episode_num a) (use_cuda a) (use_mps a)
                     (device a) (actor_model_paths a) (actor_player_ids a)).
Definition set_episode_num (v : Z) : config → config :=
  with_actor (λ a, ActorCfg (job_type a) v (use_cuda a) (use_mps a)
                     (device a) (actor_model_paths a) (actor_player_ids a)).
Definition set_use_cuda (v : bool) : config → config :=
  with_actor (λ a, ActorCfg (job_type a) (episode_num a) v (use_mps a)
                     (device a) (actor_model_paths a) (actor_player_ids a)).
Definition set_use_mps (v : bool) : config → config :=
  with_actor (λ a, ActorCfg (job_type a) (episode_num a) (use_cuda a) v
                     (device a) (actor_model_paths a) (actor_player_ids a)).
Definition set_device (v : string) : config → config :=
  with_actor (λ a, ActorCfg (job_type a) (episode_num a) (use_cuda a)
                     (use_mps a) v (actor_model_paths a) (actor_player_ids a)).
Definition set_model1 (v : string) : config → config :=
  with_actor (λ a, ActorCfg (job_type a) (episode_num a) (use_cuda a)
                     (use_mps a) (device a)
                     (ModelPaths v (model2 (actor_model_paths a)))
                     (actor_player_ids a)).
Definition set_model2 (v : string) : config → config :=
  with_actor (λ a, ActorCfg (job_type a) (episode_num a) (use_cuda a)
                     (use_mps a) (device a)
                     (ModelPaths (model1 (actor_model_paths a)) v)
                     (actor_player_ids a)).
Definition set_actor_player_ids (v : list string) : config → config :=
  with_actor (λ a, ActorCfg (job_type a) (episode_num a) (use_cuda a)
                     (use_mps a) (device a) (actor_model_paths a) v).
Definition set_realtime (v : bool) : config → config :=
  with_env (λ e, EnvCfg v (races e) (env_player_ids e)).
Definition set_races (v : list string) : config → config :=
  with_env (λ e, EnvCfg (realtime e) v (env_player_ids e)).
Definition set_env_player_ids (v : list string) : config → config :=
  with_env (λ e, EnvCfg (realtime e) (races e) v).
Definition set_common_type (v : string) : config → config :=
  with_common (λ _, CommonCfg v).

Definition get_model1 (c : config) : string := model1 (actor_model_paths (actor c)).
Definition get_model2 (c : config) : string := model2 (actor_model_paths (actor c)).

(** ** Exceptions, events and the outside world *)

(** The exceptions [main] raises itself, with their messages;
    [IndexError] is what the list assignment [races[1] = ...] raises on
    a list shorter than two; [ConfigReadError] is whatever [read_config]
    raises. *)
Inductive exn :=
  | EnvironmentError (msg : string)
  | NotADirectoryError (msg : string)
  | FileNotFoundError (msg : string)
  | IndexError (msg : string)
  | ConfigReadError (msg : string).

Inductive event :=
  | EvPrint (line : string)
  | EvProbeMps
  | EvProbeCuda
  | EvActorInit (c : config)
  | EvActorRun (c : config).

(** What the script finds when it runs. [script_dir] is
    [os.path.dirname(__file__)]; [os.path] is [posixpath]. *)
Record world := World {
  platform : string;
  path_isdir : string → bool;
  path_exists : string → bool;
  mps_is_available : bool;
  cuda_is_available : bool;
  script_dir : string;
  read_config : string → exn + config;
}.

(** ** The monad of [main] *)

Record outcome (A : Type) := Outcome {
  out_environ : gmap string string;
  out_log : list event;
  out_res : exn + A;
}.
Arguments Outcome {A} _ _ _.
Arguments out_environ {A} _.
Arguments out_log {A} _.
Arguments out_res {A} _.

Definition M (A : Type) : Type := gmap string string → outcome A.

Definition ret {A} (a : A) : M A := λ e, Outcome e [] (inr a).

Definition raise {A} (x : exn) : M A := λ e, Outcome e [] (inl x).

Definition bind {A B} (m : M A) (f : A → M B) : M B := λ e,
  let o := m e in
  match out_res o with
  | inl x => Outcome (out_environ o) (out_log o) (inl x)
  | inr a =>
      let o' := f a (out_environ o) in
      Outcome (out_environ o') (out_log o ++ out_log o') (out_res o')
  end.

Definition emit (ev : event) : M unit := λ e, Outcome e [ev] (inr tt).

Definition print (line : string) : M unit := emit (EvPrint line).

(** [os.environ.get(k, default)] with the empty string as default. *)
Definition environ_get (k : string) : M string :=
  λ e, Outcome e [] (inr (default EmptyString (e !! k))).

(** [os.environ[k] = v] *)
Definition environ_set (k v : string) : M unit :=
  λ e, Outcome (<[k := v]> e) [] (inr tt).

#[export] Instance M_ret : MRet M := @ret.
#[export] Instance M_bind : MBind M := λ A B f m, bind m f.

(** ** [main], stage by stage *)

Section Main.

Variable w : world.
Variable a : args.

Definition mac_default_sc2 : string := "/Applications/StarCraft II".

Definition msg_sc2_not_found_mac : string :=
  "SC2PATH is not set and StarCraft II wasn't found in /Applications/StarCraft II. You'll need to install SC2 or manually specify SC2PATH.".

Definition msg_sc2_not_set : string :=
  "SC2PATH isn't set at all. You really need to point this to your StarCraft II installation.".

Definition msg_sc2_not_dir (sc2path : string) : string :=
  "SC2PATH is currently '" +:+ sc2path +:+
  "', but there's no directory there. Check your install.".

(** Lines 85-106: ensure SC2PATH is found. *)
Definition locate_sc2 : M unit :=
  sc2path ← environ_get "SC2PATH";
  if negb (PyStr.truthy sc2path) then
    if String.eqb (platform w) "darwin" then
      if path_isdir w mac_default_sc2 then
        environ_set "SC2PATH" mac_default_sc2;;
        print ("[INFO] SC2PATH wasn't set, so I'm using " +:+ mac_default_sc2
               +:+ " by default.")
      else raise (EnvironmentError msg_sc2_not_found_mac)
    else raise (EnvironmentError msg_sc2_not_set)
  else
    if negb (path_isdir w sc2path) then
      raise (NotADirectoryError (msg_sc2_not_dir sc2path))
    else mret tt.

(** Lines 108-110: load [user_config.yaml] next to the script. *)
Definition load_config : M config :=
  let config_path := PosixPath.join (script_dir w) "user_config.yaml" in
  match read_config w config_path with
  | inl x => raise x
  | inr c => mret c
  end.

(** Lines 112-116: overrides for a human player in real time. *)
Definition override_play (c : config) : config :=
  set_realtime true
    (set_episode_num 1 (set_common_type "play" (set_job_type "eval_test" c))).

Definition probe_mps : M bool :=
  emit EvProbeMps;; mret (mps_is_available w).

Definition probe_cuda : M bool :=
  emit EvProbeCuda;; mret (cuda_is_available w).

Definition set_backend (dev : string) (mps cuda : bool) (c : config) : config :=
  set_use_cuda cuda (set_use_mps mps (set_device dev c)).

(** Lines 118-142: decide the device, MPS > CUDA > CPU. *)
Definition select_device (c : config) : M config :=
  let c := set_use_cuda false c in
  if args_cpu a then
    print "[INFO] CPU mode only. MPS is sidelined.";;
    mret (set_backend "cpu" false false c)
  else
    mps ← probe_mps;
    if mps : bool then
      print "[INFO] MPS is alive and well, using Metal for acceleration!";;
      mret (set_backend "mps" true false c)
    else
      cuda ← probe_cuda;
      if cuda : bool then
        print "[WARNING] No MPS support found. Trying CUDA next. Check your Applestar version if CUDA is supported.";;
        mret (set_backend "cuda" false true c)
      else
        print "[WARNING] No MPS support found. Falling back to CPU.";;
        mret (set_backend "cpu" false false c).

Definition default_model_path : string :=
  PosixPath.join (script_dir w) "rl_model.pth".

Definition cli_model_path (name : string) : string :=
  PosixPath.join (script_dir w) (name +:+ ".pth").

(** Lines 147-154: the command line name is written into the
    configuration first, the slot is read back, and the value read is
    compared with the sentinel. Returns the configuration and the
    local [model1]. *)
Definition resolve_model1 (c : config) : config * string :=
  let c := match args_model1 a with
           | Some name => set_model1 (cli_model_path name) c
           | None => c
           end in
  let model1 := get_model1 c in
  if String.eqb model1 "default"
  then (set_model1 default_model_path c, default_model_path)
  else (c, model1).

(** Lines 156-163: the same for the second slot. *)
Definition resolve_model2 (c : config) : config * string :=
  let c := match args_model2 a with
           | Some name => set_model2 (cli_model_path name) c
           | None => c
           end in
  let model2 := get_model2 c in
  if String.eqb model2 "default"
  then (set_model2 default_model_path c, default_model_path)
  else (c, model2).

Definition msg_model1_missing (p : string) : string :=
  "[ERROR] Model1 is nowhere to be found at " +:+ p.
Definition msg_model2_missing (p : string) : string :=
  "[ERROR] Model2 is nowhere to be found at " +:+ p.

(** Lines 165-168: both paths must exist, [model1] is looked at first. *)
Definition check_models (model1 model2 : string) : M unit :=
  (if negb (path_exists w model1)
   then raise (FileNotFoundError (msg_model1_missing model1))
   else mret tt);;
  if negb (path_exists w model2)
  then raise (FileNotFoundError (msg_model2_missing model2))
  else mret tt.

(** Lines 144-168 together. *)
Definition resolve_models (c : config) : M (config * string * string) :=
  let '(c, model1) := resolve_model1 c in
  let '(c, model2) := resolve_model2 c in
  check_models model1 model2;;
  mret (c, model1, model2).

(** Line 172: [user_config["env"]["races"][1] = args.race]. A list
    assignment raises [IndexError] when the index is not below the
    length. *)
Definition set_race (c : config) : M config :=
  if bool_decide (1 < length (races (env c)))%nat
  then mret (set_races (<[1%nat := race_str (args_race a)]> (races (env c))) c)
  else raise (IndexError "list assignment index out of range").

(** [os.path.basename(p).split(".")[0]] *)
Definition player_id (p : string) : string :=
  PyStr.item0 (PyStr.split "." (PosixPath.basename p)).

(** Lines 183-185 *)
Definition bot_level : string :=
  match args_model2 a with
  | Some m2 => if PyStr.truthy m2 && PyStr.str_in "bot" m2 then m2 else "bot10"
  | None => "bot10"
  end.

(** Lines 175-195: game type logic. *)
Definition game_type_logic (c : config) (model1 model2 : string) : config :=
  match args_game_type a with
  | agent_vs_agent =>
      set_env_player_ids [player_id model1; player_id model2] c
  | agent_vs_bot =>
      set_env_player_ids [player_id model1; bot_level]
        (set_actor_player_ids ["model1"] c)
  | human_vs_agent =>
      set_env_player_ids [player_id model1; "human"]
        (set_actor_player_ids ["model1"] c)
  end.

(** Lines 197-199: [actor = Actor(user_config); actor.run()]. The
    actor is given the configuration object itself; the two calls are
    recorded, what [Actor] does with them is outside the script. *)
Definition run_actor (c : config) : M unit :=
  emit (EvActorInit c);; emit (EvActorRun c).

Definition main : M unit :=
  locate_sc2;;
  c ← load_config;
  c ← select_device (override_play c);
  '(c, model1, model2) ← resolve_models c;
  c ← set_race c;
  run_actor (game_type_logic c model1 model2).

End Main.

(** ** Observations on a run *)

(** The configurations [Actor] was constructed with, in order. *)
Fixpoint init_calls (l : list event) : list config :=
  match l with
  | [] => []
  | EvActorInit c :: t => c :: init_calls t
  | _ :: t => init_calls t
  end.

(** The configurations of the actors whose [run] was called, in order. *)
Fixpoint run_calls (l : list event) : list config :=
  match l with
  | [] => []
  | EvActorRun c :: t => c :: run_calls t
  | _ :: t => run_calls t
  end.

(** The backend probes performed, in order. *)
Fixpoint probes (l : list event) : list event :=
  match l with
  | [] => []
  | EvProbeMps :: t => EvProbeMps :: probes t
  | EvProbeCuda :: t => EvProbeCuda :: probes t
  | _ :: t => probes t
  end.

(** The value of SC2PATH the script sees: the empty string when the
    variable is not set. *)
Definition sc2path_of (e : gmap string string) : string :=
  default EmptyString (e !! "SC2PATH").

(** The two boolean backend flags of the configuration. *)
Definition exactly_one_backend_flag (c : config) : Prop :=
  xorb (use_mps (actor c)) (use_cuda (actor c)) = true.

Definition at_most_one_backend_flag (c : config) : Prop :=
  use_mps (actor c) && use_cuda (actor c) = false.

Definition device_agrees_with_flags (c : config) : Prop :=
  (device (actor c) = "mps" ↔ use_mps (actor c) = true) ∧
  (device (actor c) = "cuda" ↔ use_cuda (actor c) = true) ∧
  (device (actor c) = "cpu" ↔
     use_mps (actor c) = false ∧ use_cuda (actor c) = false).

(** Sample inputs used to run the model. *)
Definition sample_config : config :=
  Config (ActorCfg "train" 5 true true "mps" (ModelPaths "default" "default") [])
         (EnvCfg false ["zerg"; "zerg"] []) (CommonCfg "train") ∅.

Definition sample_args : args :=
  Args None None false human_vs_agent zerg.

(** A Linux machine without accelerator: SC2 lives in [/opt/sc2], every
    path but [/opt/sc2] is a regular file that exists. *)
Definition sample_world : world :=
  World "linux" (λ p, String.eqb p "/opt/sc2") (λ _, true) false false
        "/opt/distar/bin" (λ _, inr sample_config).

Definition sample_environ : gmap string string := {[ "SC2PATH" := "/opt/sc2" ]}.

(** ** Definitions used by the statements *)

(** The resolution of one slot in the specification's words: the command
    line name, if given, joined to the directory of the script with
    ".pth" appended; else the default model path if the configured value
    is the sentinel "default"; else the configured value. *)
Definition spec_resolve_slot (w : world) (cli : option string)
    (existing : string) : string :=
  match cli with
  | Some name => cli_model_path w name
  | None =>
      if String.eqb existing "default" then default_model_path w else existing
  end.

(** The claim C4 read slot by slot: a missing resolved path makes the
    run fail with the error that names that very slot. *)
Definition missing_model_names_own_slot (w : world) (a : args) (c : config)
    (e : gmap string string) : Prop :=
  let m1 := spec_resolve_slot w (args_model1 a) (get_model1 c) in
  let m2 := spec_resolve_slot w (args_model2 a) (get_model2 c) in
  (path_exists w m1 = false →
   out_res (resolve_models w a c e) =
     inl (FileNotFoundError (msg_model1_missing m1))) ∧
  (path_exists w m2 = false →
   out_res (resolve_models w a c e) =
     inl (FileNotFoundError (msg_model2_missing m2))).

(** The sample machine with no model file at all. *)
Definition world_without_models : world :=
  World "linux" (λ p, String.eqb p "/opt/sc2") (λ _, false) false false
        "/opt/distar/bin" (λ _, inr sample_config).

(** The base filename with its extension stripped, in the
    specification's words: the name up to its last ".", the whole name
    when it has none. *)
Fixpoint spec_strip_extension (name : string) : string :=
  match name with
  | EmptyString => EmptyString
  | String c t =>
      if PyStr.char_in "." t then String c (spec_strip_extension t)
      else if Ascii.eqb c "." then EmptyString
      else String c t
  end.

(** A stage is quiet when it does not call into [Actor]. *)
Definition quiet (l : list event) : Prop :=
  init_calls l = [] ∧ run_calls l = [].

(** The configuration device selection leaves behind. *)
Definition device_choice (w : world) (a : args) (c : config) : config :=
  let c := set_use_cuda false c in
  if args_cpu a then set_backend "cpu" false false c
  else if mps_is_available w then set_backend "mps" true false c
  else if cuda_is_available w then set_backend "cuda" false true c
  else set_backend "cpu" false false c.

(** The configuration handed to [Actor] when nothing fails, as a
    function of the loaded configuration. *)
Definition assembled (w : world) (a : args) (c0 : config) : config :=
  let c1 := device_choice w a (override_play c0) in
  let m1 := spec_resolve_slot w (args_model1 a) (get_model1 c1) in
  let m2 := spec_resolve_slot w (args_model2 a) (get_model2 c1) in
  let c2 := set_model2 m2 (set_model1 m1 c1) in
  let c3 := set_races (<[1%nat := race_str (args_race a)]> (races (env c2))) c2 in
  game_type_logic a c3 m1 m2.

(** A machine on which only the default model file exists. *)
Definition world_with_default_model : world :=
  World "linux" (λ p, String.eqb p "/opt/sc2")
        (λ p, String.eqb p "/opt/distar/bin/rl_model.pth") false false
        "/opt/distar/bin" (λ _, inr sample_config).

(** What the configuration handed to [Actor] satisfies. *)
Definition fully_assembled (w : world) (a : args) (cfg : config) : Prop :=
  job_type (actor cfg) = "eval_test" ∧
  common_type (common cfg) = "play" ∧
  episode_num (actor cfg) = 1%Z ∧
  realtime (env cfg) = true ∧
  device (actor cfg) =
    (if args_cpu a then "cpu"
     else if mps_is_available w then "mps"
     else if cuda_is_available w then "cuda"
     else "cpu") ∧
  at_most_one_backend_flag cfg ∧
  device_agrees_with_flags cfg ∧
  path_exists w (get_model1 cfg) = true ∧
  path_exists w (get_model2 cfg) = true ∧
  races (env cfg) !! 1%nat = Some (race_str (args_race a)) ∧
  env_player_ids (env cfg) =
    match args_game_type a with
    | agent_vs_agent =>
        [player_id (get_model1 cfg); player_id (get_model2 cfg)]
    | agent_vs_bot => [player_id (get_model1 cfg); bot_level a]
    | human_vs_agent => [player_id (get_model1 cfg); "human"]
    end.

(** ** The rest of the script *)

(** The lines printed, in order. *)
Fixpoint prints (l : list event) : list string :=
  match l with
  | [] => []
  | EvPrint line :: t => line :: prints t
  | _ :: t => prints t
  end.

(** Line 43, executed when the module is loaded. *)
Definition debug_banner : string :=
  "DEBUG: Running the updated play.py with --race support!".

(** What [parser.parse_args()] (line 83) does with the command line:
    [--help] prints the help and exits with status 0, a command line
    the parser rejects prints the usage and exits with status 2, any
    other yields the namespace. What [argparse] writes itself is not
    recorded in the log. *)
Inductive parse_outcome :=
  | ParseHelp
  | ParseUsageError
  | Parsed (a : args).

(** What a launch of the program brings besides the [world]: whether
    one of the imports of lines 4-11 fails (with the message of the
    [ImportError]), and the outcome of parsing. *)
Record invocation := Invocation {
  inv_import_error : option string;
  inv_parse_args : parse_outcome;
}.

(** The names the module level statements bind before line 201: the
    imports (lines 4-13) and the two functions. The [actor] of line 198
    is local to [main]. No builtin is called [actor]. *)
Definition module_globals : list string :=
  ["os"; "sys"; "argparse"; "torch"; "Actor"; "read_config"; "warnings";
   "load_default_config"; "main"].

(** Looking a name up at module level. *)
Definition is_bound (name : string) : bool :=
  bool_decide (name ∈ module_globals).

(** How the program ends. [PostProcessed] is falling off the end of the
    module after lines 205-210. *)
Inductive script_end :=
  | ImportFailed (msg : string)
  | SystemExit (status : Z)
  | MainRaised (x : exn)
  | NameError (msg : string)
  | PostProcessed.

(** The exit status of the interpreter: that of [SystemExit], 1 for any
    other uncaught exception, 0 at the end of the module. *)
Definition exit_status (s : script_end) : Z :=
  match s with
  | SystemExit status => status
  | PostProcessed => 0
  | ImportFailed _ | MainRaised _ | NameError _ => 1
  end.

Record script_outcome := ScriptOutcome {
  script_environ : gmap string string;
  script_log : list event;
  script_result : script_end;
}.

(** The module run as a program. The imports come first; then the
    banner of line 43; then [main()] (line 202), which parses the
    command line and, with a namespace, does lines 85-199; when [main]
    returns, line 205 evaluates [actor.parse_logs], which starts with
    the lookup of the global [actor]; were it bound, lines 205-210
    would go on. *)
Definition script (w : world) (inv : invocation) (e : gmap string string)
    : script_outcome :=
  match inv_import_error inv with
  | Some msg => ScriptOutcome e [] (ImportFailed msg)
  | None =>
      match inv_parse_args inv with
      | ParseHelp => ScriptOutcome e [EvPrint debug_banner] (SystemExit 0)
      | ParseUsageError => ScriptOutcome e [EvPrint debug_banner] (SystemExit 2)
      | Parsed a =>
          let o := main w a e in
          ScriptOutcome (out_environ o) (EvPrint debug_banner :: out_log o)
            match out_res o with
            | inl x => MainRaised x
            | inr _ =>
                if is_bound "actor" then PostProcessed
                else NameError "name 'actor' is not defined"
            end
      end
  end.







(** A configuration file whose [races] has a single entry. *)
Definition config_with_one_race : config :=
  Config (ActorCfg "train" 5 true true "mps" (ModelPaths "default" "default") [])
         (EnvCfg false ["zerg"] []) (CommonCfg "train") ∅.

Definition world_with_one_race : world :=
  World "linux" (λ p, String.eqb p "/opt/sc2") (λ _, true) false false
        "/opt/distar/bin" (λ _, inr config_with_one_race).

(** A Mac with the game in its default place and a Metal backend. *)
Definition mac_world : world :=
  World "darwin" (λ p, String.eqb p "/Applications/StarCraft II") (λ _, true)
        true false "/opt/distar/bin" (λ _, inr sample_config).

(** ** The model on concrete inputs *)

Example split_on_dots :
  PyStr.split "." "a.b.c" = ["a"; "b"; "c"] ∧
  PyStr.split "." "rl_model" = ["rl_model"] ∧
  PyStr.split "." ".x." = [EmptyString; "x"; EmptyString].
Proof. done. Qed.

Example basename_of_paths :
  PosixPath.basename "/opt/distar/bin/rl_model.pth" = "rl_model.pth" ∧
  PosixPath.basename "rl_model.pth" = "rl_model.pth" ∧
  PosixPath.basename "/opt/distar/" = EmptyString.
Proof. done. Qed.

Example join_of_paths :
  PosixPath.join "/opt/distar/bin" "foo.pth" = "/opt/distar/bin/foo.pth" ∧
  PosixPath.join "/opt/distar/bin/" "foo.pth" = "/opt/distar/bin/foo.pth" ∧
  PosixPath.join EmptyString "foo.pth" = "foo.pth" ∧
  PosixPath.join "/opt/distar/bin" "/tmp/foo.pth" = "/tmp/foo.pth".
Proof. done. Qed.

Example substring_bot :
  PyStr.str_in "bot" "bot7" = true ∧
  PyStr.str_in "bot" "robots" = true ∧
  PyStr.str_in "bot" "myagent" = false.
Proof. done. Qed.

Example player_id_of_default_model :
  player_id "/opt/distar/bin/rl_model.pth" = "rl_model".
Proof. done. Qed.

Example bot_level_of_arguments :
  bot_level (Args None (Some "bot7") false agent_vs_bot zerg) = "bot7" ∧
  bot_level (Args None (Some "myagent") false agent_vs_bot zerg) = "bot10" ∧
  bot_level (Args None None false agent_vs_bot zerg) = "bot10".
Proof. done. Qed.

(** [--game_type agent_vs_agent --model1 foo --model2 bar --race protoss]
    on a machine without accelerator. *)
Example run_agent_vs_agent :
  ∃ cfg,
    run_calls (out_log (main sample_world
                          (Args (Some "foo") (Some "bar") false
                             agent_vs_agent protoss)
                          sample_environ)) = [cfg] ∧
    device (actor cfg) = "cpu" ∧
    get_model1 cfg = "/opt/distar/bin/foo.pth" ∧
    get_model2 cfg = "/opt/distar/bin/bar.pth" ∧
    env_player_ids (env cfg) = ["foo"; "bar"] ∧
    races (env cfg) = ["zerg"; "protoss"].
Proof.
  eexists. split; [vm_compute; reflexivity |]. done.
Qed.

(** Against a bot, [--model2 bot7] is still resolved to [bot7.pth] and
    checked like a model file. *)
Example bot_name_is_checked_as_model :
  out_res (main world_with_default_model
             (Args None (Some "bot7") false agent_vs_bot zerg)
             sample_environ) =
    inl (FileNotFoundError
           "[ERROR] Model2 is nowhere to be found at /opt/distar/bin/bot7.pth").
Proof. vm_compute. reflexivity. Qed.

(** Without SC2PATH on a machine that is not a Mac, nothing else runs. *)
Example run_without_sc2path :
  main sample_world sample_args ∅ =
    Outcome ∅ [] (inl (EnvironmentError msg_sc2_not_set)).
Proof. vm_compute. reflexivity. Qed.

(** ** The monad *)

Section MonadLemmas.

Context {A B : Type}.
Implicit Types (m : M A) (f : A → M B) (e : gmap string string).

Lemma out_res_bind m f e :
  out_res ((m ≫= f) e) =
  match out_res (m e) with
  | inl x => inl x
  | inr v => out_res (f v (out_environ (m e)))
  end.
Proof.
  unfold mbind, M_bind, bind. by destruct (out_res (m e)).
Qed.

Lemma out_log_bind m f e :
  out_log ((m ≫= f) e) =
  out_log (m e) ++
  match out_res (m e) with
  | inl _ => []
  | inr v => out_log (f v (out_environ (m e)))
  end.
Proof.
  unfold mbind, M_bind, bind.
  destruct (out_res (m e)); simpl; [by rewrite app_nil_r | done].
Qed.

End MonadLemmas.

Lemma init_calls_app l1 l2 : init_calls (l1 ++ l2) = init_calls l1 ++ init_calls l2.
Proof.
  induction l1 as [|[] l1 IH]; simpl; by rewrite ?IH.
Qed.

Lemma run_calls_app l1 l2 : run_calls (l1 ++ l2) = run_calls l1 ++ run_calls l2.
Proof.
  induction l1 as [|[] l1 IH]; simpl; by rewrite ?IH.
Qed.

(** ** Accelerator selection *)

(** C1. Device selection never fails and is a function of the [--cpu]
    flag and of the two backend availabilities alone: with [--cpu] the
    device is "cpu" and no backend is probed; otherwise it is "mps" when
    Metal is available, else "cuda" when CUDA is available, else "cpu"
    (the CUDA probe happens only after a failed Metal probe). The device
    is always one of "cpu", "mps", "cuda". *)
Theorem select_device_total (w : world) (a : args) (c : config)
    (e : gmap string string) :
  ∃ c',
    out_res (select_device w a c e) = inr c' ∧
    device (actor c') =
      (if args_cpu a then "cpu"
       else if mps_is_available w then "mps"
       else if cuda_is_available w then "cuda"
       else "cpu") ∧
    (device (actor c') = "cpu" ∨ device (actor c') = "mps" ∨
     device (actor c') = "cuda") ∧
    probes (out_log (select_device w a c e)) =
      (if args_cpu a then []
       else if mps_is_available w then [EvProbeMps]
       else [EvProbeMps; EvProbeCuda]).
Proof.
  unfold select_device, probe_mps, probe_cuda.
  destruct (args_cpu a), (mps_is_available w), (cuda_is_available w);
    eexists; cbn; repeat split; auto.
Qed.

(** The claim C2 as the specification words it fails when [--cpu] is
    given: both flags are then false. *)
Lemma exactly_one_flag_fails_on_cpu :
  ∃ c',
    out_res (select_device sample_world
               (Args None None true human_vs_agent zerg)
               sample_config sample_environ) = inr c' ∧
    ¬ exactly_one_backend_flag c'.
Proof.
  eexists. split; [reflexivity |].
  unfold exactly_one_backend_flag. simpl. discriminate.
Qed.

(** ** Locating the StarCraft II installation *)

Lemma locate_sc2_res (w : world) (e : gmap string string) :
  out_res (locate_sc2 w e) =
  if negb (PyStr.truthy (sc2path_of e)) then
    if String.eqb (platform w) "darwin" then
      if path_isdir w mac_default_sc2 then inr tt
      else inl (EnvironmentError msg_sc2_not_found_mac)
    else inl (EnvironmentError msg_sc2_not_set)
  else
    if negb (path_isdir w (sc2path_of e))
    then inl (NotADirectoryError (msg_sc2_not_dir (sc2path_of e)))
    else inr tt.
Proof.
  unfold locate_sc2. rewrite out_res_bind. cbn. fold (sc2path_of e).
  destruct (PyStr.truthy (sc2path_of e)); cbn.
  - by destruct (path_isdir w (sc2path_of e)).
  - destruct (String.eqb (platform w) "darwin"); [| done].
    by destruct (path_isdir w mac_default_sc2).
Qed.

Lemma sc2path_of_empty (e : gmap string string) :
  PyStr.truthy (sc2path_of e) = false ↔
  e !! "SC2PATH" = None ∨ e !! "SC2PATH" = Some EmptyString.
Proof.
  unfold sc2path_of.
  destruct (e !! "SC2PATH") as [[|ch p]|]; simpl; split; intros H;
    try done; auto; destruct H; congruence.
Qed.

Lemma sc2path_of_set (e : gmap string string) :
  PyStr.truthy (sc2path_of e) = true ↔
  ∃ p, e !! "SC2PATH" = Some p ∧ p ≠ EmptyString.
Proof.
  unfold sc2path_of.
  destruct (e !! "SC2PATH") as [[|ch p]|]; simpl; split; intros H;
    try done; try (destruct H as (q & Hq & Hne); congruence).
  by exists (String ch p).
Qed.

(** C3. Locating the installation fails with [EnvironmentError] (the
    specification's EnvironmentNotFound) exactly when SC2PATH is unset
    or empty and either the platform is not "darwin" or the default
    location [/Applications/StarCraft II] is not there, the test the
    code applies being [os.path.isdir]; it fails with
    [NotADirectoryError] (InvalidEnvironmentPath) exactly when SC2PATH
    is set to a non-empty path that is not a directory, whatever the
    platform; and it fails in no other way. *)
Theorem locate_sc2_failures (w : world) (e : gmap string string) :
  ((∃ msg, out_res (locate_sc2 w e) = inl (EnvironmentError msg)) ↔
     (e !! "SC2PATH" = None ∨ e !! "SC2PATH" = Some EmptyString) ∧
     (platform w ≠ "darwin" ∨ path_isdir w mac_default_sc2 = false)) ∧
  ((∃ msg, out_res (locate_sc2 w e) = inl (NotADirectoryError msg)) ↔
     (∃ p, e !! "SC2PATH" = Some p ∧ p ≠ EmptyString ∧
           path_isdir w p = false)) ∧
  (∀ x, out_res (locate_sc2 w e) = inl x →
        (∃ msg, x = EnvironmentError msg) ∨
        (∃ msg, x = NotADirectoryError msg)).
Proof.
  rewrite locate_sc2_res.
  rewrite <- sc2path_of_empty.
  destruct (PyStr.truthy (sc2path_of e)) eqn:Hset; cbn.
  - apply sc2path_of_set in Hset as (p & Hp & Hne).
    assert (sc2path_of e = p) as -> by (unfold sc2path_of; by rewrite Hp).
    destruct (path_isdir w p) eqn:Hdir; cbn.
    + (split; [| split]).
      * split; [intros [? ?]; done | intros [? _]; done].
      * split; [intros [? ?]; done |].
        intros (q & Hq & _ & Hqd). congruence.
      * done.
    + (split; [| split]).
      * split; [intros [? ?]; done | intros [? _]; done].
      * split; [| by eexists]. intros _. by exists p.
      * intros x [= <-]. right. by eexists.
  - assert (∀ q, e !! "SC2PATH" = Some q → q ≠ EmptyString → False) as Hno.
    { intros q Hq Hne. apply sc2path_of_empty in Hset as [H | H]; congruence. }
    destruct (String.eqb (platform w) "darwin") eqn:Hplat.
    + apply String.eqb_eq in Hplat.
      destruct (path_isdir w mac_default_sc2) eqn:Hdir.
      * (split; [| split]).
        -- split; [intros [? ?]; done |]. intros [_ [H | H]]; exfalso; congruence.
        -- split; [intros [? ?]; done |]. intros (q & Hq & Hne & _). exfalso. eauto.
        -- done.
      * (split; [| split]).
        -- split; [auto | by eexists].
        -- split; [intros [? ?]; done |]. intros (q & Hq & Hne & _). exfalso. eauto.
        -- intros x [= <-]. left. by eexists.
    + apply String.eqb_neq in Hplat.
      (split; [| split]).
      * split; [auto | by eexists].
      * split; [intros [? ?]; done |]. intros (q & Hq & Hne & _). exfalso. eauto.
      * intros x [= <-]. left. by eexists.
Qed.

(** ** Lemmas on strings and paths *)

Lemma append_assoc (s t u : string) : (s +:+ t) +:+ u = s +:+ (t +:+ u).
Proof.
  induction s as [|c s IH]; [done |].
  change (String c ((s +:+ t) +:+ u) = String c (s +:+ (t +:+ u))).
  by rewrite IH.
Qed.

Lemma last_char_append (s : string) (c : ascii) (t : string) :
  PyStr.last_char (s +:+ String c t) = PyStr.last_char (String c t).
Proof.
  induction s as [|d s IH]; [done |].
  change (String d s +:+ String c t) with (String d (s +:+ String c t)).
  rewrite <- IH. simpl. by destruct s.
Qed.

(** Whatever the two arguments, the last character of a joined path is
    the last character of its second component, when it has one. *)
Lemma last_char_join (a b : string) (c : ascii) (t : string) :
  PyStr.last_char (PosixPath.join a (b +:+ String c t)) =
  PyStr.last_char (String c t).
Proof.
  unfold PosixPath.join.
  destruct (PyStr.startswith _ _); [apply last_char_append |].
  destruct (negb _ || _).
  - rewrite <- append_assoc. apply last_char_append.
  - destruct b as [|d b].
    + change (a +:+ String PosixPath.sep (EmptyString +:+ String c t))
        with (a +:+ (String PosixPath.sep EmptyString +:+ String c t)).
      rewrite <- append_assoc. apply last_char_append.
    + change (a +:+ String PosixPath.sep (String d b +:+ String c t))
        with (a +:+ (String PosixPath.sep (String d b) +:+ String c t)).
      rewrite <- append_assoc. apply last_char_append.
Qed.

(** A path built from a command line name ends in "h", the sentinel
    "default" in "t". *)
Lemma cli_model_path_not_default (w : world) (name : string) :
  String.eqb (cli_model_path w name) "default" = false.
Proof.
  apply String.eqb_neq. intros Heq.
  pose proof (last_char_join (script_dir w) name "."%char "pth") as Hlast.
  unfold cli_model_path in Heq. rewrite Heq in Hlast. discriminate.
Qed.

Lemma default_model_path_not_default (w : world) :
  String.eqb (default_model_path w) "default" = false.
Proof.
  apply String.eqb_neq. intros Heq.
  pose proof (last_char_join (script_dir w) "rl_model" "."%char "pth") as Hlast.
  unfold default_model_path in Heq.
  change "rl_model.pth" with ("rl_model" +:+ ".pth") in Heq.
  rewrite Heq in Hlast. discriminate.
Qed.

(** Joining a relative file name to a directory. *)
Lemma join_relative (d : string) (c : ascii) (t : string) :
  c ≠ PosixPath.sep →
  PosixPath.join d (String c t) =
  if negb (PyStr.truthy d) || PyStr.endswith_char PosixPath.sep d
  then d +:+ String c t
  else d +:+ String PosixPath.sep (String c t).
Proof.
  intros Hc. unfold PosixPath.join, PyStr.startswith. cbn [String.prefix].
  destruct (ascii_dec PosixPath.sep c) as [Heq | _]; [by subst |].
  done.
Qed.

(** ** Model resolution *)

Lemma set_model1_get (c : config) : set_model1 (get_model1 c) c = c.
Proof. by destruct c as [[? ? ? ? ? [? ?] ?] ? ? ?]. Qed.

Lemma set_model2_get (c : config) : set_model2 (get_model2 c) c = c.
Proof. by destruct c as [[? ? ? ? ? [? ?] ?] ? ? ?]. Qed.

Lemma get_model1_set_model1 (v : string) (c : config) :
  get_model1 (set_model1 v c) = v.
Proof. done. Qed.

Lemma get_model2_set_model2 (v : string) (c : config) :
  get_model2 (set_model2 v c) = v.
Proof. done. Qed.

Lemma get_model2_set_model1 (v : string) (c : config) :
  get_model2 (set_model1 v c) = get_model2 c.
Proof. done. Qed.

Lemma resolve_model1_spec (w : world) (a : args) (c : config) :
  resolve_model1 w a c =
  let m1 := spec_resolve_slot w (args_model1 a) (get_model1 c) in
  (set_model1 m1 c, m1).
Proof.
  unfold resolve_model1, spec_resolve_slot.
  destruct (args_model1 a) as [name|].
  - by rewrite get_model1_set_model1, cli_model_path_not_default.
  - destruct (String.eqb (get_model1 c) "default"); [done |].
    cbn zeta. by rewrite set_model1_get.
Qed.

Lemma resolve_model2_spec (w : world) (a : args) (c : config) :
  resolve_model2 w a c =
  let m2 := spec_resolve_slot w (args_model2 a) (get_model2 c) in
  (set_model2 m2 c, m2).
Proof.
  unfold resolve_model2, spec_resolve_slot.
  destruct (args_model2 a) as [name|].
  - by rewrite get_model2_set_model2, cli_model_path_not_default.
  - destruct (String.eqb (get_model2 c) "default"); [done |].
    cbn zeta. by rewrite set_model2_get.
Qed.

Lemma spec_resolve_slot_not_default (w : world) (cli : option string)
    (existing : string) :
  String.eqb (spec_resolve_slot w cli existing) "default" = false.
Proof.
  unfold spec_resolve_slot. destruct cli as [name|].
  - apply cli_model_path_not_default.
  - destruct (String.eqb existing "default") eqn:Hd; [| done].
    apply default_model_path_not_default.
Qed.

Lemma check_models_res (w : world) (m1 m2 : string) (e : gmap string string) :
  out_res (check_models w m1 m2 e) =
  if negb (path_exists w m1)
  then inl (FileNotFoundError (msg_model1_missing m1))
  else if negb (path_exists w m2)
       then inl (FileNotFoundError (msg_model2_missing m2))
       else inr tt.
Proof.
  unfold check_models. rewrite out_res_bind.
  destruct (path_exists w m1); [| done]. cbn.
  by destruct (path_exists w m2).
Qed.

Lemma resolve_models_res (w : world) (a : args) (c : config)
    (e : gmap string string) :
  out_res (resolve_models w a c e) =
  let m1 := spec_resolve_slot w (args_model1 a) (get_model1 c) in
  let m2 := spec_resolve_slot w (args_model2 a) (get_model2 c) in
  if negb (path_exists w m1)
  then inl (FileNotFoundError (msg_model1_missing m1))
  else if negb (path_exists w m2)
       then inl (FileNotFoundError (msg_model2_missing m2))
       else inr (set_model2 m2 (set_model1 m1 c), m1, m2).
Proof.
  unfold resolve_models.
  rewrite resolve_model1_spec. cbv beta iota zeta.
  rewrite resolve_model2_spec. cbv beta iota zeta.
  rewrite get_model2_set_model1.
  rewrite out_res_bind, check_models_res.
  destruct (path_exists w _); [| done]. cbn.
  by destruct (path_exists w _).
Qed.

(** With both model files missing the error names [Model1] only, so the
    claim C4 fails for the slot [model2]. *)
Lemma both_models_missing_names_model1 :
  out_res (resolve_models world_without_models sample_args sample_config
             sample_environ) =
    inl (FileNotFoundError
           "[ERROR] Model1 is nowhere to be found at /opt/distar/bin/rl_model.pth") ∧
  ¬ missing_model_names_own_slot world_without_models sample_args
      sample_config sample_environ.
Proof.
  split; [reflexivity |].
  intros [_ H2]. specialize (H2 eq_refl). vm_compute in H2. discriminate.
Qed.

(** C4 (amended). Each slot resolves on its own: to the command line
    name joined to the directory of the script with ".pth" appended when
    a name was given, else to the default model path when the configured
    value is "default", else to the configured value, left as it is; no
    other field of the configuration changes, and resolving an already
    resolved path again changes nothing. The two paths are then checked
    in slot order: the run fails with [FileNotFoundError] naming Model1
    and its path when that path does not exist, otherwise with the one
    naming Model2 and its path when that path does not exist. *)
Theorem resolve_models_spec (w : world) (a : args) (c : config)
    (e : gmap string string) :
  let m1 := spec_resolve_slot w (args_model1 a) (get_model1 c) in
  let m2 := spec_resolve_slot w (args_model2 a) (get_model2 c) in
  resolve_model1 w a c = (set_model1 m1 c, m1) ∧
  resolve_model2 w a c = (set_model2 m2 c, m2) ∧
  out_res (resolve_models w a c e) =
    (if negb (path_exists w m1)
     then inl (FileNotFoundError (msg_model1_missing m1))
     else if negb (path_exists w m2)
          then inl (FileNotFoundError (msg_model2_missing m2))
          else inr (set_model2 m2 (set_model1 m1 c), m1, m2)) ∧
  spec_resolve_slot w None m1 = m1 ∧
  spec_resolve_slot w None m2 = m2.
Proof.
  intros m1 m2. split; [apply resolve_model1_spec |].
  split; [apply resolve_model2_spec |].
  split; [apply resolve_models_res |].
  unfold m1, m2; simpl.
  by rewrite !spec_resolve_slot_not_default.
Qed.

(** C10. A model name "default" given on the command line, for either
    slot, resolves to [default.pth] in the directory of the script, which
    is not the default model path [rl_model.pth]: no command line name is
    ever replaced by the default model path, because the name is written
    into the configuration with ".pth" appended before the value is
    compared with the sentinel. *)
Theorem cli_default_is_not_sentinel (w : world) (c : config)
    (m1 m2 : option string) (cpu : bool) (gt : game_type) (r : race) :
  let d := script_dir w in
  let p := if negb (PyStr.truthy d) || PyStr.endswith_char PosixPath.sep d
           then d +:+ "default.pth" else d +:+ "/default.pth" in
  resolve_model1 w (Args (Some "default") m2 cpu gt r) c = (set_model1 p c, p) ∧
  resolve_model2 w (Args m1 (Some "default") cpu gt r) c = (set_model2 p c, p) ∧
  p ≠ default_model_path w ∧
  (∀ name,
     resolve_model1 w (Args (Some name) m2 cpu gt r) c =
       (set_model1 (cli_model_path w name) c, cli_model_path w name) ∧
     resolve_model2 w (Args m1 (Some name) cpu gt r) c =
       (set_model2 (cli_model_path w name) c, cli_model_path w name)).
Proof.
  intros d p.
  assert (cli_model_path w "default" = p) as Hp.
  { unfold cli_model_path. change ("default" +:+ ".pth") with "default.pth".
    by rewrite join_relative. }
  rewrite <- Hp.
  split; [by rewrite resolve_model1_spec |].
  split; [by rewrite resolve_model2_spec |].
  split.
  - rewrite Hp. unfold p, default_model_path. fold d.
    rewrite join_relative by done.
    destruct (negb _ || _); intros Heq; apply (inj (String.append d)) in Heq;
      discriminate.
  - intros name. by rewrite resolve_model1_spec, resolve_model2_spec.
Qed.

(** ** Race override *)

Lemma set_race_res (a : args) (c : config) (e : gmap string string) :
  out_res (set_race a c e) =
  if bool_decide (1 < length (races (env c)))%nat
  then inr (set_races (<[1%nat := race_str (args_race a)]> (races (env c))) c)
  else inl (IndexError "list assignment index out of range").
Proof. unfold set_race. by case_bool_decide. Qed.

(** C8. Whatever the race and the game type, the race override touches
    index 1 of [races] and nothing else: when the list has an index 1 the
    step succeeds, index 1 holds the chosen race, every other index of
    [races] (index 0 in particular) and every other field of the
    configuration is as before; on a shorter list the assignment raises
    [IndexError] and nothing is written. The process environment is not
    touched and nothing is printed. *)
Theorem set_race_frame (a : args) (c : config) (e : gmap string string) :
  out_environ (set_race a c e) = e ∧
  out_log (set_race a c e) = [] ∧
  match out_res (set_race a c e) with
  | inr c' =>
      (2 ≤ length (races (env c)))%nat ∧
      races (env c') !! 1%nat = Some (race_str (args_race a)) ∧
      races (env c') !! 0%nat = races (env c) !! 0%nat ∧
      (∀ i : nat, i ≠ 1%nat → races (env c') !! i = races (env c) !! i) ∧
      length (races (env c')) = length (races (env c)) ∧
      realtime (env c') = realtime (env c) ∧
      env_player_ids (env c') = env_player_ids (env c) ∧
      actor c' = actor c ∧ common c' = common c ∧ other c' = other c
  | inl x =>
      (length (races (env c)) < 2)%nat ∧
      x = IndexError "list assignment index out of range"
  end.
Proof.
  split; [unfold set_race; by case_bool_decide |].
  split; [unfold set_race; by case_bool_decide |].
  rewrite set_race_res. case_bool_decide as Hlen; [| split; [lia | done]].
  simpl. split; [lia |].
  split; [by apply list_lookup_insert_eq |].
  split; [by apply list_lookup_insert_ne |].
  split; [intros i Hi; by apply list_lookup_insert_ne |].
  split; [apply length_insert |].
  done.
Qed.

(** ** Player identities *)

Lemma split_nonempty (sep : ascii) (s : string) : PyStr.split sep s ≠ [].
Proof.
  destruct s as [|c t]; simpl; [done |].
  destruct (Ascii.eqb c sep); [done |]. by destruct (PyStr.split sep t).
Qed.

(** [s.split(sep)[0]] is the part of [s] before its first [sep]. *)
Lemma split_item0_prefix (sep : ascii) (s : string) :
  ∃ rest,
    s = PyStr.item0 (PyStr.split sep s) +:+ rest ∧
    PyStr.char_in sep (PyStr.item0 (PyStr.split sep s)) = false ∧
    (rest = EmptyString ∨ ∃ t, rest = String sep t).
Proof.
  induction s as [|c s (rest & Hs & Hno & Hrest)].
  - exists EmptyString. auto.
  - simpl. destruct (Ascii.eqb c sep) eqn:Hc.
    + apply Ascii.eqb_eq in Hc as ->.
      exists (String sep s). split; [done |]. split; [done | eauto].
    + destruct (PyStr.split sep s) as [|h r] eqn:Hsplit;
        [by apply split_nonempty in Hsplit |].
      exists rest. unfold PyStr.item0 in *. simpl in *.
      split; [| split; [| done]].
      * change (String c h +:+ rest) with (String c (h +:+ rest)).
        by rewrite <- Hs.
      * by rewrite Hc.
Qed.

(** The player identity of a model path is the part of its base filename
    before the first ".". *)
Lemma player_id_prefix (p : string) :
  ∃ rest,
    PosixPath.basename p = player_id p +:+ rest ∧
    PyStr.char_in "." (player_id p) = false ∧
    (rest = EmptyString ∨ ∃ t, rest = String "." t).
Proof. apply split_item0_prefix. Qed.

Lemma bot_level_eq (a : args) :
  bot_level a =
  match args_model2 a with
  | Some m2 => if PyStr.str_in "bot" m2 then m2 else "bot10"
  | None => "bot10"
  end.
Proof.
  unfold bot_level. destruct (args_model2 a) as [[|c t]|]; done.
Qed.

(** A run against a bot with the model name [v1.5]: side 0 is "v1",
    not the base filename [v1.5.pth] with its extension stripped, so the
    claim C5 fails on a model name that contains a ".". *)
Lemma dotted_model_name_against_bot :
  ∃ cfg,
    run_calls (out_log (main sample_world
                          (Args (Some "v1.5") None false agent_vs_bot zerg)
                          sample_environ)) = [cfg] ∧
    get_model1 cfg = "/opt/distar/bin/v1.5.pth" ∧
    env_player_ids (env cfg) = ["v1"; "bot10"] ∧
    spec_strip_extension (PosixPath.basename (get_model1 cfg)) = "v1.5" ∧
    env_player_ids (env cfg) !! 0%nat ≠
      Some (spec_strip_extension (PosixPath.basename (get_model1 cfg))).
Proof.
  eexists. split; [vm_compute; reflexivity |].
  split; [reflexivity |]. split; [reflexivity |]. split; [reflexivity |].
  vm_compute. discriminate.
Qed.

(** C5 (amended). In a game of type [agent_vs_bot], side 1 is the raw
    [--model2] argument when it was given and contains "bot", and
    "bot10" otherwise; it does not depend on the resolved model paths.
    Side 0 is the part of the base filename of the resolved [model1]
    path that comes before its first ".". *)
Theorem agent_vs_bot_identities (c : config) (model1 model2 : string)
    (arg1 arg2 : option string) (cpu : bool) (r : race) :
  let a := Args arg1 arg2 cpu agent_vs_bot r in
  env_player_ids (env (game_type_logic a c model1 model2)) =
    [player_id model1;
     match arg2 with
     | Some m2 => if PyStr.str_in "bot" m2 then m2 else "bot10"
     | None => "bot10"
     end] ∧
  (∃ rest,
     PosixPath.basename model1 = player_id model1 +:+ rest ∧
     PyStr.char_in "." (player_id model1) = false ∧
     (rest = EmptyString ∨ ∃ t, rest = String "." t)) ∧
  (∀ model2', game_type_logic a c model1 model2' =
              game_type_logic a c model1 model2).
Proof.
  intros a. split; [| split; [apply player_id_prefix | done]].
  unfold game_type_logic. simpl. by rewrite bot_level_eq.
Qed.

(** The default game type with the model name [sl.v2]: the identities
    are ["sl"; "human"], while the base filename [sl.v2.pth] with its
    extension stripped is "sl.v2", so the claim C6 fails on a model name
    that contains a ".". *)
Lemma dotted_model_name_against_human :
  ∃ cfg,
    run_calls (out_log (main sample_world
                          (Args (Some "sl.v2") None false human_vs_agent zerg)
                          sample_environ)) = [cfg] ∧
    get_model1 cfg = "/opt/distar/bin/sl.v2.pth" ∧
    env_player_ids (env cfg) = ["sl"; "human"] ∧
    env_player_ids (env cfg) ≠
      [spec_strip_extension (PosixPath.basename (get_model1 cfg)); "human"].
Proof.
  eexists. split; [vm_compute; reflexivity |].
  split; [reflexivity |]. split; [reflexivity |].
  vm_compute. discriminate.
Qed.

(** C6 (amended). For every game type the derived [player_ids] of the
    environment has exactly two entries, side 0 then side 1; with
    [human_vs_agent] it is the part of the base filename of the resolved
    [model1] path before its first ".", followed by "human". *)
Theorem player_ids_two_entries (a : args) (c : config)
    (model1 model2 : string) :
  length (env_player_ids (env (game_type_logic a c model1 model2))) = 2%nat ∧
  env_player_ids (env (game_type_logic a c model1 model2)) =
    match args_game_type a with
    | agent_vs_agent => [player_id model1; player_id model2]
    | agent_vs_bot => [player_id model1; bot_level a]
    | human_vs_agent => [player_id model1; "human"]
    end ∧
  (∃ rest,
     PosixPath.basename model1 = player_id model1 +:+ rest ∧
     PyStr.char_in "." (player_id model1) = false ∧
     (rest = EmptyString ∨ ∃ t, rest = String "." t)).
Proof.
  unfold game_type_logic.
  split; [by destruct (args_game_type a) |].
  split; [by destruct (args_game_type a) | apply player_id_prefix].
Qed.

(** ** The whole run *)

Lemma quiet_nil : quiet [].
Proof. done. Qed.

Lemma quiet_app (l1 l2 : list event) : quiet l1 → quiet l2 → quiet (l1 ++ l2).
Proof.
  intros [Hi1 Hr1] [Hi2 Hr2]. unfold quiet.
  by rewrite init_calls_app, run_calls_app, Hi1, Hr1, Hi2, Hr2.
Qed.

#[local] Hint Resolve quiet_nil quiet_app : core.

Lemma locate_sc2_quiet (w : world) (e : gmap string string) :
  quiet (out_log (locate_sc2 w e)).
Proof.
  unfold locate_sc2. rewrite out_log_bind. cbn.
  destruct (PyStr.truthy _); cbn.
  - by destruct (path_isdir w _).
  - destruct (String.eqb _ _); [| done]. by destruct (path_isdir w _).
Qed.

Lemma load_config_res (w : world) (e : gmap string string) :
  out_res (load_config w e) =
  read_config w (PosixPath.join (script_dir w) "user_config.yaml").
Proof. unfold load_config. by destruct (read_config w _). Qed.

Lemma load_config_quiet (w : world) (e : gmap string string) :
  quiet (out_log (load_config w e)).
Proof. unfold load_config. by destruct (read_config w _). Qed.

Lemma select_device_res (w : world) (a : args) (c : config)
    (e : gmap string string) :
  out_res (select_device w a c e) = inr (device_choice w a c).
Proof.
  unfold select_device, device_choice, probe_mps, probe_cuda.
  by destruct (args_cpu a), (mps_is_available w), (cuda_is_available w).
Qed.

Lemma select_device_quiet (w : world) (a : args) (c : config)
    (e : gmap string string) :
  quiet (out_log (select_device w a c e)).
Proof.
  unfold select_device, probe_mps, probe_cuda.
  by destruct (args_cpu a), (mps_is_available w), (cuda_is_available w).
Qed.

Lemma check_models_quiet (w : world) (m1 m2 : string) (e : gmap string string) :
  quiet (out_log (check_models w m1 m2 e)).
Proof.
  unfold check_models. by destruct (path_exists w m1), (path_exists w m2).
Qed.

Lemma resolve_models_quiet (w : world) (a : args) (c : config)
    (e : gmap string string) :
  quiet (out_log (resolve_models w a c e)).
Proof.
  unfold resolve_models.
  destruct (resolve_model1 w a c) as [c1 m1].
  destruct (resolve_model2 w a c1) as [c2 m2].
  rewrite out_log_bind. apply quiet_app; [apply check_models_quiet |].
  by destruct (out_res _).
Qed.

Lemma set_race_quiet (a : args) (c : config) (e : gmap string string) :
  quiet (out_log (set_race a c e)).
Proof. unfold set_race. by case_bool_decide. Qed.

Lemma run_actor_res (c : config) (e : gmap string string) :
  out_res (run_actor c e) = inr tt.
Proof. done. Qed.

Lemma run_actor_calls (c : config) (e : gmap string string) :
  init_calls (out_log (run_actor c e)) = [c] ∧
  run_calls (out_log (run_actor c e)) = [c].
Proof. done. Qed.

Lemma env_set_models (m1 m2 : string) (c : config) :
  env (set_model2 m2 (set_model1 m1 c)) = env c.
Proof. done. Qed.

(** The result of [main], stage after stage. *)
Lemma main_res (w : world) (a : args) (e : gmap string string) :
  out_res (main w a e) =
  match out_res (locate_sc2 w e) with
  | inl x => inl x
  | inr _ =>
      match read_config w (PosixPath.join (script_dir w) "user_config.yaml") with
      | inl x => inl x
      | inr c0 =>
          let c1 := device_choice w a (override_play c0) in
          let m1 := spec_resolve_slot w (args_model1 a) (get_model1 c1) in
          let m2 := spec_resolve_slot w (args_model2 a) (get_model2 c1) in
          if negb (path_exists w m1)
          then inl (FileNotFoundError (msg_model1_missing m1))
          else if negb (path_exists w m2)
               then inl (FileNotFoundError (msg_model2_missing m2))
               else if bool_decide (1 < length (races (env c1)))%nat
                    then inr tt
                    else inl (IndexError "list assignment index out of range")
      end
  end.
Proof.
  unfold main.
  rewrite out_res_bind. destruct (out_res (locate_sc2 w e)) as [x|[]]; [done |].
  rewrite out_res_bind, load_config_res.
  destruct (read_config w _) as [x|c0]; [done |].
  rewrite out_res_bind, select_device_res.
  rewrite out_res_bind, resolve_models_res. cbv zeta.
  destruct (path_exists w _); [| done].
  destruct (path_exists w _); [| done]. cbv beta iota. simpl negb. cbv iota.
  rewrite out_res_bind, set_race_res, !env_set_models.
  by case_bool_decide.
Qed.

(** The calls into [Actor] made by [main]. *)
Lemma main_calls (w : world) (a : args) (e : gmap string string) :
  init_calls (out_log (main w a e)) = run_calls (out_log (main w a e)) ∧
  run_calls (out_log (main w a e)) =
    match out_res (main w a e),
          read_config w (PosixPath.join (script_dir w) "user_config.yaml") with
    | inr _, inr c0 => [assembled w a c0]
    | _, _ => []
    end.
Proof.
  rewrite main_res. unfold main, assembled.
  rewrite out_log_bind, init_calls_app, run_calls_app.
  destruct (locate_sc2_quiet w e) as [-> ->].
  destruct (out_res (locate_sc2 w e)) as [x|[]]; [done |].
  set (e1 := out_environ (locate_sc2 w e)). clearbody e1.
  rewrite out_log_bind, init_calls_app, run_calls_app.
  destruct (load_config_quiet w e1) as [-> ->].
  rewrite load_config_res.
  destruct (read_config w _) as [x|c0]; [done |].
  set (e2 := out_environ (load_config w e1)). clearbody e2.
  rewrite out_log_bind, init_calls_app, run_calls_app.
  destruct (select_device_quiet w a (override_play c0) e2) as [-> ->].
  rewrite select_device_res.
  set (e3 := out_environ (select_device w a (override_play c0) e2)).
  clearbody e3.
  set (c1 := device_choice w a (override_play c0)).
  rewrite out_log_bind, init_calls_app, run_calls_app.
  destruct (resolve_models_quiet w a c1 e3) as [-> ->].
  rewrite resolve_models_res. cbv zeta.
  destruct (path_exists w _); [| done].
  destruct (path_exists w _); [| done]. cbv beta iota. simpl negb. cbv iota.
  set (e4 := out_environ (resolve_models w a c1 e3)). clearbody e4.
  rewrite out_log_bind, init_calls_app, run_calls_app.
  match goal with
  | |- context [set_race a ?c e4] =>
      destruct (set_race_quiet a c e4) as [-> ->]; rewrite (set_race_res a c e4)
  end.
  rewrite !env_set_models. case_bool_decide; [| done].
  by rewrite !app_nil_l.
Qed.

Lemma get_model1_device_choice (w : world) (a : args) (c : config) :
  get_model1 (device_choice w a (override_play c)) = get_model1 c.
Proof.
  unfold device_choice.
  by destruct (args_cpu a), (mps_is_available w), (cuda_is_available w).
Qed.

Lemma get_model2_device_choice (w : world) (a : args) (c : config) :
  get_model2 (device_choice w a (override_play c)) = get_model2 c.
Proof.
  unfold device_choice.
  by destruct (args_cpu a), (mps_is_available w), (cuda_is_available w).
Qed.

(** In the default game type, with neither model file on disk, the
    resolved [model2] path does not exist and yet the run fails with the
    error for Model1: the claim C7 fails when an earlier step fails. *)
Lemma human_mode_both_missing_names_model1 :
  args_game_type sample_args = human_vs_agent ∧
  path_exists world_without_models
    (spec_resolve_slot world_without_models (args_model2 sample_args)
       (get_model2 sample_config)) = false ∧
  out_res (main world_without_models sample_args sample_environ) =
    inl (FileNotFoundError
           "[ERROR] Model1 is nowhere to be found at /opt/distar/bin/rl_model.pth") ∧
  out_res (main world_without_models sample_args sample_environ) ≠
    inl (FileNotFoundError
           (msg_model2_missing
              (spec_resolve_slot world_without_models (args_model2 sample_args)
                 (get_model2 sample_config)))).
Proof.
  split; [reflexivity |]. split; [reflexivity |].
  split; [vm_compute; reflexivity |].
  vm_compute. discriminate.
Qed.

(** C7 (amended). With game type [human_vs_agent], when the installation
    is located, the configuration is loaded and the resolved [model1]
    path exists, a resolved [model2] path that does not exist makes the
    run fail with the [FileNotFoundError] for Model2, before [Actor] is
    constructed, although the player identities of this game type are
    side 0 from [model1] and "human" whatever [model2] is. *)
Theorem human_mode_checks_model2 (w : world) (e : gmap string string)
    (c0 : config) (arg1 arg2 : option string) (cpu : bool) (r : race) :
  let a := Args arg1 arg2 cpu human_vs_agent r in
  let m1 := spec_resolve_slot w arg1 (get_model1 c0) in
  let m2 := spec_resolve_slot w arg2 (get_model2 c0) in
  out_res (locate_sc2 w e) = inr tt →
  read_config w (PosixPath.join (script_dir w) "user_config.yaml") = inr c0 →
  path_exists w m1 = true →
  path_exists w m2 = false →
  out_res (main w a e) = inl (FileNotFoundError (msg_model2_missing m2)) ∧
  init_calls (out_log (main w a e)) = [] ∧
  run_calls (out_log (main w a e)) = [] ∧
  (∀ c model2,
     env_player_ids (env (game_type_logic a c m1 model2)) =
       [player_id m1; "human"]).
Proof.
  intros a m1 m2 Hloc Hcfg H1 H2.
  assert (out_res (main w a e) = inl (FileNotFoundError (msg_model2_missing m2)))
    as Hres.
  { rewrite main_res, Hloc, Hcfg. cbv zeta.
    rewrite get_model1_device_choice, get_model2_device_choice.
    change (args_model1 a) with arg1. change (args_model2 a) with arg2.
    fold m1 m2. by rewrite H1, H2. }
  destruct (main_calls w a e) as [Hinit Hrun].
  rewrite Hinit, Hrun, Hres. done.
Qed.

Lemma human_mode_checks_model2_witness :
  let w := world_with_default_model in
  let a := Args None (Some "ghost") false human_vs_agent zerg in
  out_res (main w a sample_environ) =
    inl (FileNotFoundError
           "[ERROR] Model2 is nowhere to be found at /opt/distar/bin/ghost.pth") ∧
  init_calls (out_log (main w a sample_environ)) = [] ∧
  run_calls (out_log (main w a sample_environ)) = [] ∧
  (∀ c model2,
     env_player_ids
       (env (game_type_logic a c "/opt/distar/bin/rl_model.pth" model2)) =
       [player_id "/opt/distar/bin/rl_model.pth"; "human"]).
Proof.
  apply (human_mode_checks_model2 world_with_default_model sample_environ
           sample_config None (Some "ghost") false zerg);
    vm_compute; reflexivity.
Defined.

Lemma assembled_fully (w : world) (a : args) (c0 : config) :
  let c1 := device_choice w a (override_play c0) in
  path_exists w (spec_resolve_slot w (args_model1 a) (get_model1 c1)) = true →
  path_exists w (spec_resolve_slot w (args_model2 a) (get_model2 c1)) = true →
  (1 < length (races (env c1)))%nat →
  fully_assembled w a (assembled w a c0).
Proof.
  intros c1 H1 H2 Hlen. unfold fully_assembled, assembled. fold c1.
  set (m1 := spec_resolve_slot w (args_model1 a) (get_model1 c1)) in *.
  set (m2 := spec_resolve_slot w (args_model2 a) (get_model2 c1)) in *.
  assert (races (env c1) = races (env (override_play c0))) as Hraces.
  { unfold c1, device_choice.
    by destruct (args_cpu a), (mps_is_available w), (cuda_is_available w). }
  unfold game_type_logic, at_most_one_backend_flag, device_agrees_with_flags.
  destruct (args_game_type a); simpl;
    rewrite ?list_lookup_insert_eq by done;
    unfold c1, device_choice;
    destruct (args_cpu a), (mps_is_available w), (cuda_is_available w);
    simpl; intuition congruence.
Qed.

(** ** The device flags at assembly time *)

Lemma assembled_flags (w : world) (a : args) (c0 : config) :
  at_most_one_backend_flag (assembled w a c0) ∧
  device_agrees_with_flags (assembled w a c0).
Proof.
  unfold assembled, game_type_logic, device_choice,
    at_most_one_backend_flag, device_agrees_with_flags.
  destruct (args_game_type a), (args_cpu a), (mps_is_available w),
    (cuda_is_available w); simpl; intuition congruence.
Qed.

(** C2 (amended). After device selection at most one of [use_mps] and
    [use_cuda] is true, never both (with "cpu" both are false), and the
    [device] field agrees with the flags: "mps" iff [use_mps], "cuda"
    iff [use_cuda], "cpu" iff neither. The same holds of every
    configuration [Actor] is constructed with. *)
Theorem select_device_flags (w : world) (a : args) (c : config)
    (e : gmap string string) :
  (∃ c',
     out_res (select_device w a c e) = inr c' ∧
     at_most_one_backend_flag c' ∧
     device_agrees_with_flags c') ∧
  (∀ cfg, cfg ∈ init_calls (out_log (main w a e)) →
          at_most_one_backend_flag cfg ∧ device_agrees_with_flags cfg).
Proof.
  split.
  - exists (device_choice w a c). split; [apply select_device_res |].
    unfold device_choice, at_most_one_backend_flag, device_agrees_with_flags.
    destruct (args_cpu a), (mps_is_available w), (cuda_is_available w);
      simpl; intuition congruence.
  - intros cfg. destruct (main_calls w a e) as [-> ->].
    destruct (out_res (main w a e)); [by intros ?%elem_of_nil |].
    destruct (read_config w _) as [?|c0]; [by intros ?%elem_of_nil |].
    intros ->%list_elem_of_singleton. apply assembled_flags.
Qed.

(** ** More on locating the installation *)

Lemma locate_sc2_environ (w : world) (e : gmap string string) :
  out_environ (locate_sc2 w e) =
  if negb (PyStr.truthy (sc2path_of e)) && String.eqb (platform w) "darwin"
     && path_isdir w mac_default_sc2
  then <["SC2PATH" := mac_default_sc2]> e
  else e.
Proof.
  unfold locate_sc2, mbind, M_bind, bind. cbn. fold (sc2path_of e).
  destruct (PyStr.truthy (sc2path_of e)); cbn.
  - by destruct (path_isdir w (sc2path_of e)).
  - destruct (String.eqb (platform w) "darwin"); [| done].
    by destruct (path_isdir w mac_default_sc2).
Qed.

Lemma locate_sc2_log (w : world) (e : gmap string string) :
  out_log (locate_sc2 w e) =
  if negb (PyStr.truthy (sc2path_of e)) && String.eqb (platform w) "darwin"
     && path_isdir w mac_default_sc2
  then [EvPrint "[INFO] SC2PATH wasn't set, so I'm using /Applications/StarCraft II by default."]
  else [].
Proof.
  unfold locate_sc2, mbind, M_bind, bind. cbn. fold (sc2path_of e).
  destruct (PyStr.truthy (sc2path_of e)); cbn.
  - by destruct (path_isdir w (sc2path_of e)).
  - destruct (String.eqb (platform w) "darwin"); [| done].
    by destruct (path_isdir w mac_default_sc2).
Qed.

(** X1. When locating the installation succeeds, SC2PATH in the process
    environment is a non-empty path of a directory: either it was set
    to one, and then the environment is untouched and nothing is
    printed, or it was unset or empty on "darwin" with the default
    location a directory, and then SC2PATH is set to that location and
    one notice is printed. *)
Theorem locate_sc2_success (w : world) (e : gmap string string) :
  out_res (locate_sc2 w e) = inr tt →
  ∃ p,
    out_environ (locate_sc2 w e) !! "SC2PATH" = Some p ∧
    p ≠ EmptyString ∧
    path_isdir w p = true ∧
    ((e !! "SC2PATH" = Some p ∧
      out_environ (locate_sc2 w e) = e ∧
      out_log (locate_sc2 w e) = []) ∨
     ((e !! "SC2PATH" = None ∨ e !! "SC2PATH" = Some EmptyString) ∧
      platform w = "darwin" ∧
      p = mac_default_sc2 ∧
      out_environ (locate_sc2 w e) = <["SC2PATH" := p]> e ∧
      out_log (locate_sc2 w e) =
        [EvPrint "[INFO] SC2PATH wasn't set, so I'm using /Applications/StarCraft II by default."])).
Proof.
  rewrite locate_sc2_res, locate_sc2_environ, locate_sc2_log.
  destruct (PyStr.truthy (sc2path_of e)) eqn:Hset; cbn.
  - apply sc2path_of_set in Hset as (p & Hp & Hne).
    assert (sc2path_of e = p) as -> by (unfold sc2path_of; by rewrite Hp).
    destruct (path_isdir w p) eqn:Hdir; [| done]. intros _.
    exists p. split; [done |]. split; [done |]. split; [done |]. by left.
  - apply sc2path_of_empty in Hset.
    destruct (String.eqb (platform w) "darwin") eqn:Hplat; [| done].
    apply String.eqb_eq in Hplat.
    destruct (path_isdir w mac_default_sc2) eqn:Hdir; [| done]. intros _.
    exists mac_default_sc2. cbn.
    split; [apply lookup_insert_eq |]. split; [done |]. split; [done |].
    right. done.
Qed.

Lemma locate_sc2_success_witness :
  let e : gmap string string := ∅ in
  ∃ p,
    out_environ (locate_sc2 mac_world e) !! "SC2PATH" = Some p ∧
    p ≠ EmptyString ∧
    path_isdir mac_world p = true ∧
    ((e !! "SC2PATH" = Some p ∧
      out_environ (locate_sc2 mac_world e) = e ∧
      out_log (locate_sc2 mac_world e) = []) ∨
     ((e !! "SC2PATH" = None ∨ e !! "SC2PATH" = Some EmptyString) ∧
      platform mac_world = "darwin" ∧
      p = mac_default_sc2 ∧
      out_environ (locate_sc2 mac_world e) = <["SC2PATH" := p]> e ∧
      out_log (locate_sc2 mac_world e) =
        [EvPrint "[INFO] SC2PATH wasn't set, so I'm using /Applications/StarCraft II by default."])).
Proof.
  intros e. apply (locate_sc2_success mac_world e). vm_compute. reflexivity.
Defined.

(** X2. Locating the installation never reads or writes any variable of
    the process environment other than SC2PATH, and when it fails it
    leaves the whole environment as it was and prints nothing. *)
Theorem locate_sc2_frame (w : world) (e : gmap string string) :
  (∀ k, k ≠ "SC2PATH" → out_environ (locate_sc2 w e) !! k = e !! k) ∧
  (∀ e' : gmap string string,
     e' !! "SC2PATH" = e !! "SC2PATH" →
     out_res (locate_sc2 w e') = out_res (locate_sc2 w e)) ∧
  (∀ x, out_res (locate_sc2 w e) = inl x →
        out_environ (locate_sc2 w e) = e ∧ out_log (locate_sc2 w e) = []).
Proof.
  split; [| split].
  - intros k Hk. rewrite locate_sc2_environ.
    destruct (_ && _); [by rewrite lookup_insert_ne | done].
  - intros e' He. rewrite !locate_sc2_res. unfold sc2path_of. by rewrite He.
  - intros x. rewrite locate_sc2_res, locate_sc2_environ, locate_sc2_log.
    destruct (PyStr.truthy (sc2path_of e)); cbn.
    + by destruct (path_isdir w (sc2path_of e)).
    + destruct (String.eqb (platform w) "darwin"); [| done].
      by destruct (path_isdir w mac_default_sc2).
Qed.

(** ** More on the whole run *)

Lemma out_environ_bind {A B : Type} (m : M A) (f : A → M B)
    (e : gmap string string) :
  out_environ ((m ≫= f) e) =
  match out_res (m e) with
  | inl _ => out_environ (m e)
  | inr v => out_environ (f v (out_environ (m e)))
  end.
Proof. unfold mbind, M_bind, bind. by destruct (out_res (m e)). Qed.

Lemma probes_app (l1 l2 : list event) : probes (l1 ++ l2) = probes l1 ++ probes l2.
Proof. induction l1 as [|[] l1 IH]; simpl; by rewrite ?IH. Qed.

Lemma load_config_environ (w : world) (e : gmap string string) :
  out_environ (load_config w e) = e ∧ out_log (load_config w e) = [].
Proof. unfold load_config. by destruct (read_config w _). Qed.

Lemma select_device_environ (w : world) (a : args) (c : config)
    (e : gmap string string) :
  out_environ (select_device w a c e) = e.
Proof.
  unfold select_device, probe_mps, probe_cuda.
  by destruct (args_cpu a), (mps_is_available w), (cuda_is_available w).
Qed.

Lemma select_device_probes (w : world) (a : args) (c : config)
    (e : gmap string string) :
  probes (out_log (select_device w a c e)) =
  if args_cpu a then []
  else if mps_is_available w then [EvProbeMps]
  else [EvProbeMps; EvProbeCuda].
Proof.
  unfold select_device, probe_mps, probe_cuda.
  by destruct (args_cpu a), (mps_is_available w), (cuda_is_available w).
Qed.

Lemma resolve_models_environ (w : world) (a : args) (c : config)
    (e : gmap string string) :
  out_environ (resolve_models w a c e) = e ∧
  out_log (resolve_models w a c e) = [].
Proof.
  unfold resolve_models.
  destruct (resolve_model1 w a c) as [c1 m1].
  destruct (resolve_model2 w a c1) as [c2 m2].
  unfold check_models.
  by destruct (path_exists w m1), (path_exists w m2).
Qed.

Lemma set_race_environ (a : args) (c : config) (e : gmap string string) :
  out_environ (set_race a c e) = e ∧ out_log (set_race a c e) = [].
Proof. unfold set_race. by case_bool_decide. Qed.

Lemma races_device_choice (w : world) (a : args) (c : config) :
  races (env (device_choice w a (override_play c))) = races (env c).
Proof.
  unfold device_choice.
  by destruct (args_cpu a), (mps_is_available w), (cuda_is_available w).
Qed.

Lemma main_environ_eq (w : world) (a : args) (e : gmap string string) :
  out_environ (main w a e) = out_environ (locate_sc2 w e).
Proof.
  unfold main.
  rewrite out_environ_bind.
  destruct (out_res (locate_sc2 w e)) as [x|[]]; [done |].
  set (e1 := out_environ (locate_sc2 w e)).
  rewrite out_environ_bind, load_config_res.
  rewrite (proj1 (load_config_environ w e1)).
  destruct (read_config w _) as [x|c0]; [done |].
  rewrite out_environ_bind, select_device_res, select_device_environ.
  rewrite out_environ_bind, resolve_models_res.
  rewrite (proj1 (resolve_models_environ w a _ e1)). cbv zeta.
  destruct (path_exists w _); [| done].
  destruct (path_exists w _); [| done]. cbv beta iota. simpl negb. cbv iota.
  rewrite out_environ_bind, set_race_res.
  rewrite (proj1 (set_race_environ a _ e1)).
  by case_bool_decide.
Qed.

(** X3. After locating the installation no step of [main] touches the
    process environment: variables other than SC2PATH are as before the
    run, and whenever [Actor] is run SC2PATH holds the path of a
    directory, where the game launch will look for it. *)
Theorem main_environ (w : world) (a : args) (e : gmap string string) :
  out_environ (main w a e) = out_environ (locate_sc2 w e) ∧
  (∀ k, k ≠ "SC2PATH" → out_environ (main w a e) !! k = e !! k) ∧
  (∀ cfg, cfg ∈ run_calls (out_log (main w a e)) →
          ∃ p, out_environ (main w a e) !! "SC2PATH" = Some p ∧
               path_isdir w p = true).
Proof.
  rewrite main_environ_eq. split; [done |]. split.
  - intros k Hk. rewrite locate_sc2_environ.
    destruct (_ && _); [by rewrite lookup_insert_ne | done].
  - intros cfg. destruct (main_calls w a e) as [_ ->].
    destruct (out_res (main w a e)) as [x|[]] eqn:Hres;
      [by intros ?%elem_of_nil |].
    intros _. rewrite main_res in Hres.
    destruct (out_res (locate_sc2 w e)) as [x|[]] eqn:Hloc; [done |].
    rewrite locate_sc2_res in Hloc. rewrite locate_sc2_environ.
    destruct (PyStr.truthy (sc2path_of e)) eqn:Hset; cbn in *.
    + apply sc2path_of_set in Hset as (p & Hp & Hne).
      assert (sc2path_of e = p) as Heq by (unfold sc2path_of; by rewrite Hp).
      rewrite Heq in Hloc.
      destruct (path_isdir w p) eqn:Hdir; [| done]. eauto.
    + destruct (String.eqb (platform w) "darwin"); [| done].
      destruct (path_isdir w mac_default_sc2) eqn:Hdir; [| done]. cbn.
      exists mac_default_sc2. by rewrite lookup_insert_eq.
Qed.

(** X4. The torch backends are probed only by a run that has located
    the installation and loaded the configuration, and never when
    [--cpu] is given; such a run probes Metal once and CUDA once more
    only when Metal is not available, whether or not a later step
    fails. *)
Theorem main_probes (w : world) (a : args) (e : gmap string string) :
  probes (out_log (main w a e)) =
  match out_res (locate_sc2 w e),
        read_config w (PosixPath.join (script_dir w) "user_config.yaml") with
  | inr _, inr _ =>
      if args_cpu a then []
      else if mps_is_available w then [EvProbeMps]
      else [EvProbeMps; EvProbeCuda]
  | _, _ => []
  end.
Proof.
  unfold main.
  rewrite out_log_bind, probes_app, locate_sc2_log.
  assert (∀ b : bool, probes (if b then [EvPrint "[INFO] SC2PATH wasn't set, so I'm using /Applications/StarCraft II by default."] else []) = []) as ->
    by (by intros []).
  destruct (out_res (locate_sc2 w e)) as [x|[]]; [done |].
  set (e1 := out_environ (locate_sc2 w e)).
  rewrite out_log_bind, probes_app, load_config_res.
  rewrite (proj2 (load_config_environ w e1)).
  rewrite (proj1 (load_config_environ w e1)).
  destruct (read_config w _) as [x|c0]; [done |].
  rewrite out_log_bind, probes_app, select_device_probes, select_device_res,
    select_device_environ.
  rewrite out_log_bind, resolve_models_res.
  rewrite (proj2 (resolve_models_environ w a _ e1)).
  rewrite (proj1 (resolve_models_environ w a _ e1)). cbv zeta.
  destruct (path_exists w _); [| by rewrite app_nil_r].
  destruct (path_exists w _); [| by rewrite app_nil_r].
  cbv beta iota. simpl negb. cbv iota.
  rewrite out_log_bind, set_race_res.
  rewrite (proj2 (set_race_environ a _ e1)).
  case_bool_decide; by rewrite app_nil_r.
Qed.

(** X5. Device selection overwrites [device], [use_mps] and [use_cuda]
    with values that do not depend on what the configuration file said,
    leaves every other entry of the configuration as it was, prints
    exactly one notice, after the probes, and selecting again on its
    result changes nothing. *)
Theorem select_device_overwrites (w : world) (a : args) (c : config)
    (e : gmap string string) :
  ∃ c',
    out_res (select_device w a c e) = inr c' ∧
    (job_type (actor c') = job_type (actor c) ∧
     episode_num (actor c') = episode_num (actor c) ∧
     actor_model_paths (actor c') = actor_model_paths (actor c) ∧
     actor_player_ids (actor c') = actor_player_ids (actor c) ∧
     env c' = env c ∧ common c' = common c ∧ other c' = other c) ∧
    (∀ c2 e2 c2',
       out_res (select_device w a c2 e2) = inr c2' →
       device (actor c2') = device (actor c') ∧
       use_mps (actor c2') = use_mps (actor c') ∧
       use_cuda (actor c2') = use_cuda (actor c')) ∧
    (∀ e2, out_res (select_device w a c' e2) = inr c') ∧
    (∃ line,
       out_log (select_device w a c e) =
         probes (out_log (select_device w a c e)) ++ [EvPrint line]).
Proof.
  exists (device_choice w a c). split; [apply select_device_res |].
  split; [| split; [| split]].
  - unfold device_choice.
    by destruct (args_cpu a), (mps_is_available w), (cuda_is_available w).
  - intros c2 e2 c2'. rewrite select_device_res. intros [= <-].
    unfold device_choice.
    by destruct (args_cpu a), (mps_is_available w), (cuda_is_available w).
  - intros e2. rewrite select_device_res. f_equal.
    unfold device_choice.
    by destruct (args_cpu a), (mps_is_available w), (cuda_is_available w).
  - unfold select_device, probe_mps, probe_cuda.
    destruct (args_cpu a), (mps_is_available w), (cuda_is_available w);
      by eexists.
Qed.

(** X6. [main] stops at the first failure, in this order: the exception
    of the installation lookup; else the one [read_config] raises; else
    [FileNotFoundError] for Model1 when its resolved path does not
    exist; else the one for Model2; else [IndexError] when the [races]
    of the loaded configuration has no index 1; else it returns. The
    resolved paths and the length of [races] are those of the loaded
    configuration: the device selection in between changes neither. *)
Theorem main_first_failure (w : world) (a : args) (e : gmap string string) :
  out_res (main w a e) =
  match out_res (locate_sc2 w e) with
  | inl x => inl x
  | inr _ =>
      match read_config w (PosixPath.join (script_dir w) "user_config.yaml") with
      | inl x => inl x
      | inr c0 =>
          let m1 := spec_resolve_slot w (args_model1 a) (get_model1 c0) in
          let m2 := spec_resolve_slot w (args_model2 a) (get_model2 c0) in
          if negb (path_exists w m1)
          then inl (FileNotFoundError (msg_model1_missing m1))
          else if negb (path_exists w m2)
               then inl (FileNotFoundError (msg_model2_missing m2))
               else if bool_decide (length (races (env c0)) ≤ 1)%nat
                    then inl (IndexError "list assignment index out of range")
                    else inr tt
      end
  end.
Proof.
  rewrite main_res.
  destruct (out_res (locate_sc2 w e)) as [x|[]]; [done |].
  destruct (read_config w _) as [x|c0]; [done |].
  cbv zeta.
  rewrite get_model1_device_choice, get_model2_device_choice,
    races_device_choice.
  destruct (path_exists w _); [| done].
  destruct (path_exists w _); [| done]. simpl.
  repeat case_bool_decide; done || lia.
Qed.

(** X7. A configuration file whose [races] has fewer than two entries
    makes every run fail: [Actor] is never constructed, and a run whose
    earlier steps all succeed ends in [IndexError], whatever the race
    and the game type. *)
Theorem short_races_never_run (w : world) (a : args) (e : gmap string string)
    (c0 : config) :
  read_config w (PosixPath.join (script_dir w) "user_config.yaml") = inr c0 →
  (length (races (env c0)) < 2)%nat →
  (∃ x, out_res (main w a e) = inl x) ∧
  init_calls (out_log (main w a e)) = [] ∧
  run_calls (out_log (main w a e)) = [] ∧
  (out_res (locate_sc2 w e) = inr tt →
   path_exists w (spec_resolve_slot w (args_model1 a) (get_model1 c0)) = true →
   path_exists w (spec_resolve_slot w (args_model2 a) (get_model2 c0)) = true →
   out_res (main w a e) =
     inl (IndexError "list assignment index out of range")).
Proof.
  intros Hcfg Hlen.
  assert (∀ c1, races (env c1) = races (env c0) →
                bool_decide (1 < length (races (env c1)))%nat = false) as Hshort.
  { intros c1 ->. case_bool_decide; [lia | done]. }
  assert (∃ x, out_res (main w a e) = inl x) as [x Hx].
  { rewrite main_res, Hcfg.
    destruct (out_res (locate_sc2 w e)) as [?|[]]; [by eexists |].
    cbv zeta. rewrite (Hshort _ (races_device_choice w a c0)).
    destruct (path_exists w _); [| by eexists].
    destruct (path_exists w _); by eexists. }
  split; [by exists x |].
  destruct (main_calls w a e) as [-> ->]. rewrite Hx.
  split; [done |]. split; [done |].
  intros Hloc H1 H2. rewrite <- Hx.
  rewrite main_res, Hloc, Hcfg. cbv zeta.
  rewrite get_model1_device_choice, get_model2_device_choice, H1, H2.
  by rewrite (Hshort _ (races_device_choice w a c0)).
Qed.

Lemma short_races_never_run_witness :
  (∃ x, out_res (main world_with_one_race sample_args sample_environ) = inl x) ∧
  init_calls (out_log (main world_with_one_race sample_args sample_environ)) = [] ∧
  run_calls (out_log (main world_with_one_race sample_args sample_environ)) = [] ∧
  out_res (main world_with_one_race sample_args sample_environ) =
    inl (IndexError "list assignment index out of range").
Proof.
  destruct (short_races_never_run world_with_one_race sample_args
              sample_environ config_with_one_race)
    as (Hx & Hinit & Hrun & Hidx).
  - reflexivity.
  - simpl. lia.
  - split; [exact Hx |]. split; [exact Hinit |]. split; [exact Hrun |].
    apply Hidx; vm_compute; reflexivity.
Defined.

(** ** From a model name to a player identity *)

Lemma char_in_append (c : ascii) (s t : string) :
  PyStr.char_in c (s +:+ t) = PyStr.char_in c s || PyStr.char_in c t.
Proof.
  induction s as [|d s IH]; [done |].
  change (String d s +:+ t) with (String d (s +:+ t)). simpl.
  rewrite IH. by destruct (Ascii.eqb d c).
Qed.

Lemma basename_from_no_sep (cur p : string) :
  PyStr.char_in PosixPath.sep p = false → PosixPath.basename_from cur p = cur.
Proof.
  induction p as [|c p IH]; [done |]. simpl.
  destruct (Ascii.eqb c PosixPath.sep); [done |]. apply IH.
Qed.

Lemma basename_from_after_sep (cur a b : string) :
  PosixPath.basename_from cur (a +:+ String PosixPath.sep b) =
  PosixPath.basename b.
Proof.
  revert cur. induction a as [|c a IH]; intros cur.
  - done.
  - change (String c a +:+ String PosixPath.sep b)
      with (String c (a +:+ String PosixPath.sep b)).
    simpl. destruct (Ascii.eqb c PosixPath.sep); apply IH.
Qed.

Lemma endswith_char_split (c : ascii) (s : string) :
  PyStr.endswith_char c s = true → ∃ s', s = s' +:+ String c EmptyString.
Proof.
  unfold PyStr.endswith_char.
  induction s as [|d s IH]; [done |].
  destruct s as [|d' s].
  - simpl. intros ->%Ascii.eqb_eq. by exists EmptyString.
  - intros H. destruct (IH H) as [s' Hs']. exists (String d s').
    change (String d s' +:+ String c EmptyString)
      with (String d (s' +:+ String c EmptyString)).
    by rewrite <- Hs'.
Qed.

(** The base filename of a joined path is its second component when
    that has no separator. *)
Lemma basename_join (a b : string) :
  PyStr.char_in PosixPath.sep b = false →
  PosixPath.basename (PosixPath.join a b) = b.
Proof.
  intros Hb. unfold PosixPath.join, PyStr.startswith.
  assert (String.prefix (String PosixPath.sep EmptyString) b = false) as ->.
  { destruct b as [|c b]; [done |]. cbn [String.prefix].
    simpl in Hb. apply orb_false_iff in Hb as [Hc _].
    apply Ascii.eqb_neq in Hc.
    destruct (ascii_dec PosixPath.sep c); [by subst | done]. }
  destruct a as [|c a].
  - simpl. unfold PosixPath.basename. by apply basename_from_no_sep.
  - cbn [PyStr.truthy negb orb].
    destruct (PyStr.endswith_char PosixPath.sep (String c a)) eqn:Hend.
    + apply endswith_char_split in Hend as [a' ->].
      rewrite append_assoc.
      change (String PosixPath.sep EmptyString +:+ b) with (String PosixPath.sep b).
      unfold PosixPath.basename at 1. rewrite basename_from_after_sep.
      unfold PosixPath.basename. by apply basename_from_no_sep.
    + unfold PosixPath.basename at 1. rewrite basename_from_after_sep.
      unfold PosixPath.basename. by apply basename_from_no_sep.
Qed.

Lemma split_item0_append (sep : ascii) (s t : string) :
  PyStr.item0 (PyStr.split sep (s +:+ String sep t)) =
  PyStr.item0 (PyStr.split sep s).
Proof.
  induction s as [|c s IH].
  - change (EmptyString +:+ String sep t) with (String sep t).
    simpl. by rewrite Ascii.eqb_refl.
  - change (String c s +:+ String sep t) with (String c (s +:+ String sep t)).
    simpl. destruct (Ascii.eqb c sep); [done |].
    destruct (PyStr.split sep (s +:+ String sep t)) as [|h r] eqn:H1;
      [by apply split_nonempty in H1 |].
    destruct (PyStr.split sep s) as [|h' r'] eqn:H2;
      [by apply split_nonempty in H2 |].
    unfold PyStr.item0 in *. simpl in *. by rewrite IH.
Qed.

Lemma split_no_sep (sep : ascii) (s : string) :
  PyStr.char_in sep s = false → PyStr.split sep s = [s].
Proof.
  induction s as [|c s IH]; [done |]. simpl.
  destruct (Ascii.eqb c sep); [done |]. simpl. intros H. by rewrite IH.
Qed.

Lemma player_id_cli_model_path (w : world) (name : string) :
  PyStr.char_in "/" name = false →
  player_id (cli_model_path w name) = PyStr.item0 (PyStr.split "." name).
Proof.
  intros Hname. unfold player_id, cli_model_path.
  rewrite basename_join.
  - apply (split_item0_append "." name "pth").
  - rewrite char_in_append. unfold PosixPath.sep. by rewrite Hname.
Qed.

(** X8. A model name given on the command line comes back as the player
    identity: for a name without "/" the identity derived from the
    resolved path is the part of the name before its first ".", hence
    the name itself when it has no "." either, whatever the directory
    of the script. *)
Theorem cli_name_round_trip (w : world) (name : string) :
  PyStr.char_in "/" name = false →
  player_id (cli_model_path w name) = PyStr.item0 (PyStr.split "." name) ∧
  (PyStr.char_in "." name = false → player_id (cli_model_path w name) = name).
Proof.
  intros Hname. split; [by apply player_id_cli_model_path |].
  intros Hdot. rewrite player_id_cli_model_path by done.
  by rewrite split_no_sep.
Qed.

Lemma cli_name_round_trip_witness :
  player_id (cli_model_path sample_world "foo") =
    PyStr.item0 (PyStr.split "." "foo") ∧
  (PyStr.char_in "." "foo" = false →
   player_id (cli_model_path sample_world "foo") = "foo").
Proof.
  apply (cli_name_round_trip sample_world "foo"). reflexivity.
Defined.

Lemma player_id_default_model_path (w : world) :
  player_id (default_model_path w) = "rl_model".
Proof.
  unfold default_model_path.
  change "rl_model.pth" with ("rl_model" +:+ ".pth").
  fold (cli_model_path w "rl_model").
  by rewrite player_id_cli_model_path.
Qed.

(** X9. With a configuration file that leaves [model1] at "default" and
    no [--model1], the agent is known as "rl_model" wherever the script
    is installed: in the default game type every configuration [Actor]
    is run with has the player identities "rl_model" and "human". *)
Theorem default_run_identities (w : world) (e : gmap string string)
    (c0 : config) (arg2 : option string) (cpu : bool) (r : race) :
  let a := Args None arg2 cpu human_vs_agent r in
  read_config w (PosixPath.join (script_dir w) "user_config.yaml") = inr c0 →
  get_model1 c0 = "default" →
  ∀ cfg, cfg ∈ run_calls (out_log (main w a e)) →
         get_model1 cfg = default_model_path w ∧
         env_player_ids (env cfg) = ["rl_model"; "human"].
Proof.
  intros a Hcfg Hdef cfg. destruct (main_calls w a e) as [_ ->].
  rewrite Hcfg. destruct (out_res (main w a e)); [by intros ?%elem_of_nil |].
  intros ->%list_elem_of_singleton.
  unfold assembled, game_type_logic. simpl.
  rewrite get_model1_device_choice, Hdef. simpl.
  by rewrite player_id_default_model_path.
Qed.

Lemma default_run_identities_witness :
  ∃ cfg,
    run_calls (out_log (main sample_world sample_args sample_environ)) = [cfg] ∧
    get_model1 cfg = default_model_path sample_world ∧
    env_player_ids (env cfg) = ["rl_model"; "human"].
Proof.
  pose proof (default_run_identities sample_world sample_environ sample_config
                None false zerg eq_refl eq_refl) as H.
  assert (∃ cfg, run_calls (out_log (main sample_world sample_args
                                       sample_environ)) = [cfg]) as [cfg Hrun]
    by (eexists; vm_compute; reflexivity).
  exists cfg. split; [exact Hrun |].
  apply H. fold sample_args. rewrite Hrun. apply list_elem_of_here.
Defined.

(** X10. A model name that starts with "/" leaves the directory of the
    script: the slot resolves to the name itself with ".pth" appended,
    the same path wherever the script is installed. *)
Theorem absolute_cli_name (w : world) (c : config) (name : string)
    (m1 m2 : option string) (cpu : bool) (gt : game_type) (r : race) :
  let p := String "/" name +:+ ".pth" in
  cli_model_path w (String "/" name) = p ∧
  resolve_model1 w (Args (Some (String "/" name)) m2 cpu gt r) c =
    (set_model1 p c, p) ∧
  resolve_model2 w (Args m1 (Some (String "/" name)) cpu gt r) c =
    (set_model2 p c, p).
Proof.
  intros p.
  assert (cli_model_path w (String "/" name) = p) as Hp.
  { unfold cli_model_path, PosixPath.join, PyStr.startswith.
    change (String "/" name +:+ ".pth") with (String "/" (name +:+ ".pth")).
    cbn [String.prefix].
    destruct (ascii_dec PosixPath.sep "/") as [_ | Hne]; [| by destruct Hne].
    assert (∀ s, String.prefix EmptyString s = true) as -> by (by intros []).
    done. }
  split; [done |]. rewrite <- Hp.
  by rewrite resolve_model1_spec, resolve_model2_spec.
Qed.

(** ** More on the game type logic *)

(** X11. The game type logic writes player identities and nothing else:
    the device, the model paths, the races and every other entry are as
    before; the identities of the actor become ["model1"] against a bot
    or a human and are left as they were with [agent_vs_agent]. *)
Theorem game_type_logic_frame (a : args) (c : config) (model1 model2 : string) :
  let c' := game_type_logic a c model1 model2 in
  job_type (actor c') = job_type (actor c) ∧
  episode_num (actor c') = episode_num (actor c) ∧
  use_cuda (actor c') = use_cuda (actor c) ∧
  use_mps (actor c') = use_mps (actor c) ∧
  device (actor c') = device (actor c) ∧
  actor_model_paths (actor c') = actor_model_paths (actor c) ∧
  realtime (env c') = realtime (env c) ∧
  races (env c') = races (env c) ∧
  common c' = common c ∧ other c' = other c ∧
  actor_player_ids (actor c') =
    match args_game_type a with
    | agent_vs_agent => actor_player_ids (actor c)
    | agent_vs_bot | human_vs_agent => ["model1"]
    end.
Proof. unfold game_type_logic. by destruct (args_game_type a). Qed.

(** X12. Against a bot, the name given with [--model2] is still treated
    as a model: a run succeeds only if the file of that name with
    ".pth" appended exists, even when the name is only used as the
    difficulty of the bot; the configuration [Actor] gets has that path
    as [model2] and the difficulty as side 1. *)
Theorem bot_name_needs_model_file (w : world) (e : gmap string string)
    (name : string) (arg1 : option string) (cpu : bool) (r : race) :
  let a := Args arg1 (Some name) cpu agent_vs_bot r in
  out_res (main w a e) = inr tt →
  path_exists w (cli_model_path w name) = true ∧
  ∃ cfg,
    run_calls (out_log (main w a e)) = [cfg] ∧
    get_model2 cfg = cli_model_path w name ∧
    env_player_ids (env cfg) !! 1%nat =
      Some (if PyStr.str_in "bot" name then name else "bot10").
Proof.
  intros a Hres. destruct (main_calls w a e) as [_ Hrun].
  rewrite Hres in Hrun. rewrite main_res in Hres.
  destruct (out_res (locate_sc2 w e)) as [?|[]]; [done |].
  destruct (read_config w _) as [?|c0]; [done |].
  cbv zeta in Hres.
  destruct (path_exists w _) eqn:H1; [| done].
  destruct (path_exists w _) eqn:H2 in Hres; [| done].
  split; [exact H2 |].
  exists (assembled w a c0). split; [done |]. split; [done |].
  unfold assembled, game_type_logic. simpl. by rewrite bot_level_eq.
Qed.

Lemma bot_name_needs_model_file_witness :
  let a := Args None (Some "bot7") false agent_vs_bot zerg in
  path_exists sample_world (cli_model_path sample_world "bot7") = true ∧
  ∃ cfg,
    run_calls (out_log (main sample_world a sample_environ)) = [cfg] ∧
    get_model2 cfg = cli_model_path sample_world "bot7" ∧
    env_player_ids (env cfg) !! 1%nat =
      Some (if PyStr.str_in "bot" "bot7" then "bot7" else "bot10").
Proof.
  apply (bot_name_needs_model_file sample_world sample_environ "bot7"
           None false zerg).
  vm_compute. reflexivity.
Defined.

(** ** More on the race override *)

(** X13. Overriding the race twice is the same as overriding it once
    with the later race: the second override succeeds whenever the
    first did, and overriding again with the same race changes
    nothing. *)
Theorem set_race_last_wins (a1 a2 : args) (c c1 : config)
    (e1 e2 : gmap string string) :
  out_res (set_race a1 c e1) = inr c1 →
  out_res (set_race a2 c1 e2) = out_res (set_race a2 c e2) ∧
  (∃ c2, out_res (set_race a2 c e2) = inr c2) ∧
  out_res (set_race a1 c1 e2) = inr c1.
Proof.
  rewrite !set_race_res. case_bool_decide as Hlen; [| done].
  intros [= <-]. simpl. rewrite length_insert, !list_insert_insert_eq.
  rewrite bool_decide_true by done. split; [done |]. split; [by eexists | done].
Qed.

Lemma set_race_last_wins_witness :
  let a1 := Args None None false human_vs_agent protoss in
  let a2 := Args None None false human_vs_agent terran in
  let c1 := set_races ["zerg"; "protoss"] sample_config in
  out_res (set_race a2 c1 ∅) = out_res (set_race a2 sample_config ∅) ∧
  (∃ c2, out_res (set_race a2 sample_config ∅) = inr c2) ∧
  out_res (set_race a1 c1 ∅) = inr c1.
Proof.
  apply (set_race_last_wins (Args None None false human_vs_agent protoss)
           (Args None None false human_vs_agent terran) sample_config
           (set_races ["zerg"; "protoss"] sample_config) ∅ ∅).
  reflexivity.
Defined.

(** ** More on model resolution *)

Lemma model1_message_is_not_model2 (p q : string) :
  msg_model1_missing p ≠ msg_model2_missing q.
Proof.
  unfold msg_model1_missing, msg_model2_missing. intros H.
  cbv [String.append] in H. discriminate H.
Qed.

(** X14. When both slots are given alike (the same command line name
    or none, the same configured value), they resolve to one path, and
    a missing file is always reported for Model1: the error for Model2
    cannot occur. *)
Theorem same_path_blames_model1 (w : world) (a : args) (c : config)
    (e : gmap string string) :
  args_model1 a = args_model2 a →
  get_model1 c = get_model2 c →
  let m := spec_resolve_slot w (args_model1 a) (get_model1 c) in
  out_res (resolve_models w a c e) =
    (if path_exists w m
     then inr (set_model2 m (set_model1 m c), m, m)
     else inl (FileNotFoundError (msg_model1_missing m))) ∧
  (∀ p, out_res (resolve_models w a c e) ≠
        inl (FileNotFoundError (msg_model2_missing p))).
Proof.
  intros Hargs Hcfg m. rewrite resolve_models_res. cbv zeta.
  rewrite <- Hargs, <- Hcfg. fold m.
  destruct (path_exists w m); simpl.
  - split; [done |]. done.
  - split; [done |].
    intros p H. apply (model1_message_is_not_model2 m p). congruence.
Qed.

Lemma same_path_blames_model1_witness :
  let m := spec_resolve_slot world_without_models None "default" in
  out_res (resolve_models world_without_models sample_args sample_config
             sample_environ) =
    (if path_exists world_without_models m
     then inr (set_model2 m (set_model1 m sample_config), m, m)
     else inl (FileNotFoundError (msg_model1_missing m))) ∧
  (∀ p, out_res (resolve_models world_without_models sample_args
                   sample_config sample_environ) ≠
        inl (FileNotFoundError (msg_model2_missing p))).
Proof.
  apply (same_path_blames_model1 world_without_models sample_args
           sample_config sample_environ); reflexivity.
Defined.

(** X15. The sentinel never survives resolution: whatever the command
    line and the configuration file, neither slot holds "default"
    afterwards, and no configuration [Actor] is constructed with has
    "default" as a model path. *)
Theorem sentinel_never_reaches_actor (w : world) (a : args)
    (e : gmap string string) :
  (∀ c, get_model1 (resolve_model1 w a c).1 ≠ "default" ∧
        (resolve_model1 w a c).2 ≠ "default" ∧
        get_model2 (resolve_model2 w a c).1 ≠ "default" ∧
        (resolve_model2 w a c).2 ≠ "default") ∧
  (∀ cfg, cfg ∈ init_calls (out_log (main w a e)) →
          get_model1 cfg ≠ "default" ∧ get_model2 cfg ≠ "default").
Proof.
  assert (∀ cli existing, spec_resolve_slot w cli existing ≠ "default") as Hne.
  { intros cli existing. apply String.eqb_neq, spec_resolve_slot_not_default. }
  split.
  - intros c. rewrite resolve_model1_spec, resolve_model2_spec. simpl.
    repeat split; apply Hne.
  - intros cfg. destruct (main_calls w a e) as [-> ->].
    destruct (out_res (main w a e)); [by intros ?%elem_of_nil |].
    destruct (read_config w _) as [?|c0]; [by intros ?%elem_of_nil |].
    intros ->%list_elem_of_singleton.
    unfold assembled, game_type_logic.
    destruct (args_game_type a); simpl; split; apply Hne.
Qed.

(** ** The script as a program *)

(** A run that returns ends with the two calls into [Actor]. *)
Lemma main_log_end (w : world) (a : args) (e : gmap string string) :
  out_res (main w a e) = inr tt →
  ∃ pre c0,
    read_config w (PosixPath.join (script_dir w) "user_config.yaml") = inr c0 ∧
    out_log (main w a e) =
      pre ++ [EvActorInit (assembled w a c0); EvActorRun (assembled w a c0)].
Proof.
  rewrite main_res. unfold main, assembled.
  rewrite out_log_bind.
  destruct (out_res (locate_sc2 w e)) as [x|[]]; [done |].
  set (e1 := out_environ (locate_sc2 w e)). clearbody e1.
  rewrite out_log_bind, load_config_res.
  destruct (read_config w _) as [x|c0]; [done |].
  set (e2 := out_environ (load_config w e1)). clearbody e2.
  rewrite out_log_bind, select_device_res.
  set (e3 := out_environ (select_device w a (override_play c0) e2)).
  clearbody e3.
  set (c1 := device_choice w a (override_play c0)).
  rewrite out_log_bind, resolve_models_res. cbv zeta.
  destruct (path_exists w _); [| done].
  destruct (path_exists w _); [| done]. cbv beta iota. simpl negb. cbv iota.
  set (e4 := out_environ (resolve_models w a c1 e3)). clearbody e4.
  rewrite out_log_bind.
  match goal with
  | |- context [set_race a ?c e4] => rewrite (set_race_res a c e4)
  end.
  rewrite !env_set_models. case_bool_decide; [| done]. intros _.
  eexists _, c0. split; [done |].
  rewrite !app_assoc. reflexivity.
Qed.

(** X16. Run as a program, the script exits with status 0 only when
    [argparse] itself exits for [--help]; it never reaches the end of
    the module. A failed import ends it before anything is printed; a
    rejected command line ends it with status 2 after the banner; once
    the command line is parsed, either [main] raises, that exception
    ends the script and [Actor] was never constructed, or [main]
    returns, [Actor] was constructed once and run once, that run is the
    last thing the script did, and the script dies with [NameError] on
    the unbound global [actor], before any log is parsed or any result
    summarised. *)
Theorem script_exit_status (w : world) (inv : invocation)
    (e : gmap string string) :
  (exit_status (script_result (script w inv e)) = 0%Z ↔
     inv_import_error inv = None ∧ inv_parse_args inv = ParseHelp) ∧
  match script_result (script w inv e) with
  | PostProcessed => False
  | ImportFailed msg =>
      inv_import_error inv = Some msg ∧
      script_log (script w inv e) = [] ∧
      script_environ (script w inv e) = e
  | SystemExit status =>
      inv_import_error inv = None ∧
      (inv_parse_args inv = ParseHelp ∧ status = 0%Z ∨
       inv_parse_args inv = ParseUsageError ∧ status = 2%Z) ∧
      script_log (script w inv e) = [EvPrint debug_banner] ∧
      script_environ (script w inv e) = e
  | MainRaised x =>
      inv_import_error inv = None ∧
      ∃ a,
        inv_parse_args inv = Parsed a ∧
        out_res (main w a e) = inl x ∧
        head (script_log (script w inv e)) = Some (EvPrint debug_banner) ∧
        init_calls (script_log (script w inv e)) = [] ∧
        run_calls (script_log (script w inv e)) = []
  | NameError msg =>
      msg = "name 'actor' is not defined" ∧
      inv_import_error inv = None ∧
      ∃ a cfg,
        inv_parse_args inv = Parsed a ∧
        out_res (main w a e) = inr tt ∧
        head (script_log (script w inv e)) = Some (EvPrint debug_banner) ∧
        init_calls (script_log (script w inv e)) = [cfg] ∧
        run_calls (script_log (script w inv e)) = [cfg] ∧
        last (script_log (script w inv e)) = Some (EvActorRun cfg)
  end.
Proof.
  unfold script.
  destruct (inv_import_error inv) as [msg|]; [by split; [split; [| intros []] |] |].
  destruct (inv_parse_args inv) as [| | a].
  - simpl. split; [done |]. split; [done |]. split; [by left | done].
  - simpl. split; [by split; [| intros []] |].
    split; [done |]. split; [by right | done].
  - simpl. destruct (main_calls w a e) as [Hinit Hrun].
    destruct (out_res (main w a e)) as [x|[]] eqn:Hres.
    + simpl. split; [by split; [| intros []] |]. split; [done |].
      exists a. by rewrite Hinit, Hrun.
    + change (is_bound "actor") with false. simpl.
      split; [by split; [| intros []] |]. split; [done |]. split; [done |].
      destruct (main_log_end w a e Hres) as (pre & c0 & Hcfg & Hlog).
      rewrite Hcfg in Hrun. exists a, (assembled w a c0).
      rewrite Hinit, Hrun. do 5 (split; [done |]).
      rewrite Hlog, app_comm_cons.
      replace [EvActorInit (assembled w a c0); EvActorRun (assembled w a c0)]
        with ([EvActorInit (assembled w a c0)] ++ [EvActorRun (assembled w a c0)])
        by done.
      rewrite app_assoc. apply last_snoc.
Qed.

(** ** Two agents named on the command line *)

(** X17. With [agent_vs_agent] and two model names without "/" and
    without ".", every configuration [Actor] is run with has exactly
    those two names as player identities, in the order given, the two
    files of those names in the directory of the script as model paths,
    and the chosen race at index 1 of [races]. *)
Theorem agent_vs_agent_names (w : world) (e : gmap string string)
    (n1 n2 : string) (cpu : bool) (r : race) :
  let a := Args (Some n1) (Some n2) cpu agent_vs_agent r in
  PyStr.char_in "/" n1 = false → PyStr.char_in "." n1 = false →
  PyStr.char_in "/" n2 = false → PyStr.char_in "." n2 = false →
  ∀ cfg, cfg ∈ run_calls (out_log (main w a e)) →
         env_player_ids (env cfg) = [n1; n2] ∧
         get_model1 cfg = PosixPath.join (script_dir w) (n1 +:+ ".pth") ∧
         get_model2 cfg = PosixPath.join (script_dir w) (n2 +:+ ".pth") ∧
         races (env cfg) !! 1%nat = Some (race_str r).
Proof.
  intros a Hs1 Hd1 Hs2 Hd2 cfg.
  destruct (main_calls w a e) as [_ Hrun]. rewrite Hrun.
  destruct (out_res (main w a e)) as [x|[]] eqn:Hres;
    [by intros ?%elem_of_nil |].
  rewrite main_res in Hres.
  destruct (out_res (locate_sc2 w e)) as [?|[]]; [done |].
  destruct (read_config w _) as [?|c0]; [by intros ?%elem_of_nil |].
  intros ->%list_elem_of_singleton.
  cbv zeta in Hres.
  destruct (path_exists w _); [| done].
  destruct (path_exists w _); [| done].
  simpl in Hres. case_bool_decide as Hlen; [| done].
  unfold assembled, game_type_logic. simpl.
  rewrite !player_id_cli_model_path, !split_no_sep by done.
  split; [done |]. split; [done |]. split; [done |].
  by apply list_lookup_insert_eq.
Qed.

Lemma agent_vs_agent_names_witness :
  ∃ cfg,
    run_calls (out_log (main sample_world
                          (Args (Some "foo") (Some "bar") false
                             agent_vs_agent protoss)
                          sample_environ)) = [cfg] ∧
    env_player_ids (env cfg) = ["foo"; "bar"] ∧
    get_model1 cfg = "/opt/distar/bin/foo.pth" ∧
    get_model2 cfg = "/opt/distar/bin/bar.pth" ∧
    races (env cfg) !! 1%nat = Some "protoss".
Proof.
  pose proof (agent_vs_agent_names sample_world sample_environ "foo" "bar"
                false protoss eq_refl eq_refl eq_refl eq_refl) as H.
  assert (∃ cfg, run_calls (out_log (main sample_world
                                       (Args (Some "foo") (Some "bar") false
                                          agent_vs_agent protoss)
                                       sample_environ)) = [cfg]) as [cfg Hrun]
    by (eexists; vm_compute; reflexivity).
  exists cfg. split; [exact Hrun |].
  apply H. rewrite Hrun. apply list_elem_of_here.
Defined.

(** ** The baseline configuration *)


(** ** Handing over to [Actor] *)

(** C9. Whatever the arguments, the machine and the environment, a run
    of [main] returns exactly when every resolution step succeeds: the
    installation is located, the configuration is loaded, both resolved
    model paths exist and [races] has an index 1. In that case [Actor]
    is constructed exactly once and its [run] called exactly once, as
    the last two things the run does, on the fully assembled
    configuration. Otherwise an exception is raised and [Actor] has
    been neither constructed nor run. *)
Theorem main_runs_actor_once (w : world) (a : args) (e : gmap string string) :
  (out_res (main w a e) = inr tt ↔
     out_res (locate_sc2 w e) = inr tt ∧
     ∃ c0,
       read_config w (PosixPath.join (script_dir w) "user_config.yaml") =
         inr c0 ∧
       path_exists w (spec_resolve_slot w (args_model1 a) (get_model1 c0)) =
         true ∧
       path_exists w (spec_resolve_slot w (args_model2 a) (get_model2 c0)) =
         true ∧
       (2 ≤ length (races (env c0)))%nat) ∧
  match out_res (main w a e) with
  | inr _ =>
      out_res (locate_sc2 w e) = inr tt ∧
      ∃ c0 cfg pre,
        read_config w (PosixPath.join (script_dir w) "user_config.yaml") =
          inr c0 ∧
        cfg = assembled w a c0 ∧
        out_log (main w a e) = pre ++ [EvActorInit cfg; EvActorRun cfg] ∧
        init_calls pre = [] ∧ run_calls pre = [] ∧
        init_calls (out_log (main w a e)) = [cfg] ∧
        run_calls (out_log (main w a e)) = [cfg] ∧
        fully_assembled w a cfg ∧
        actor_player_ids (actor cfg) =
          match args_game_type a with
          | agent_vs_agent => actor_player_ids (actor c0)
          | agent_vs_bot | human_vs_agent => ["model1"]
          end ∧
        other cfg = other c0
  | inl _ =>
      init_calls (out_log (main w a e)) = [] ∧
      run_calls (out_log (main w a e)) = []
  end.
Proof.
  split.
  - rewrite main_res. split.
    + destruct (out_res (locate_sc2 w e)) as [x|[]]; [done |].
      destruct (read_config w _) as [x|c0]; [done |].
      cbv zeta.
      rewrite get_model1_device_choice, get_model2_device_choice,
        races_device_choice.
      destruct (path_exists w (spec_resolve_slot w (args_model1 a) _)) eqn:H1;
        [| done].
      destruct (path_exists w (spec_resolve_slot w (args_model2 a) _)) eqn:H2;
        [| done].
      simpl. case_bool_decide as Hlen; [| done]. intros _.
      split; [done |]. exists c0. repeat split; [done .. | lia].
    + intros (-> & c0 & -> & H1 & H2 & Hlen). cbv zeta.
      rewrite get_model1_device_choice, get_model2_device_choice,
        races_device_choice, H1, H2.
      simpl. by rewrite bool_decide_true by lia.
  - destruct (main_calls w a e) as [Hinit Hrun].
    destruct (out_res (main w a e)) as [x|[]] eqn:Hres;
      [by rewrite Hinit, Hrun |].
    destruct (main_log_end w a e Hres) as (pre & c0 & Hcfg & Hlog).
    rewrite Hcfg in Hrun. rewrite Hrun in Hinit.
    assert (init_calls pre = [] ∧ run_calls pre = []) as [Hpi Hpr].
    { rewrite Hlog, init_calls_app in Hinit.
      rewrite Hlog, run_calls_app in Hrun. simpl in Hinit, Hrun.
      split; by apply (app_inv_tail [assembled w a c0]). }
    rewrite main_res, Hcfg in Hres.
    destruct (out_res (locate_sc2 w e)) as [?|[]]; [done |].
    cbv zeta in Hres.
    destruct (path_exists w _) eqn:H1; [| done].
    destruct (path_exists w _) eqn:H2 in Hres; [| done].
    simpl in Hres. case_bool_decide as Hlen; [| done].
    split; [done |].
    exists c0, (assembled w a c0), pre.
    do 7 (split; [done |]).
    split; [by apply assembled_fully |].
    unfold assembled, game_type_logic, device_choice.
    destruct (args_game_type a), (args_cpu a), (mps_is_available w),
      (cuda_is_available w); done.
Qed.
